(** * OBAQ 2.0: the Trainer and its driver

    A shallow embedding of [src/trainer/trainer.py] (TrainingLog, Trainer,
    get_optimizer) and of [src/train.py] (main), with the properties of
    the training loop proved over it.

    Python objects live in a store and are named by locations, so that two
    references to one object alias.  Code that calls into collaborators
    (torch, the model, the criterion, the two schedulers, the data loaders,
    the file system) runs in a small state-and-exception monad: every
    collaborator call is recorded in a trace, may raise, and has the effect
    on the store that the repository's description gives it.

    Python floats are represented by rationals ([Q]); no property below
    depends on rounding. *)

From Stdlib Require Import ZArith QArith List String Lia.
From stdpp Require Import base option gmap strings list fin_maps pretty.

Open Scope string_scope.
Open Scope list_scope.
Open Scope Z_scope.

(** ** Values, exceptions and results *)

Abbreviation loc := nat.

Inductive Exn : Type :=
| TypeError (msg : string)
| AttributeError (attr : string)
| ZeroDivisionError
| FileNotFoundError (path : string)
| JSONDecodeError
| ConvergenceFailure (param : nat)
| CollaboratorError (code : nat).

Inductive Res (A : Type) : Type :=
| Ok (a : A)
| Err (e : Exn).
Arguments Ok {A} a.
Arguments Err {A} e.

Definition is_ok {A} (r : Res A) : bool :=
  match r with Ok _ => true | Err _ => false end.

(** ** utils.meters *)

(** Modelled from the spec: [meters.AverageMeter] (module [utils.meters] is
    not part of the sources); it maintains [{val, avg, sum, count}],
    [update(value)] records one measurement, [reset()] clears it. *)
Record AverageMeter := mkMeter {
  val : Q;
  avg : Q;
  sum : Q;
  count : Z
}.

Definition AverageMeter_new : AverageMeter :=
  {| val := 0; avg := 0; sum := 0; count := 0 |}.

Definition AverageMeter_reset (m : AverageMeter) : AverageMeter :=
  AverageMeter_new.

Definition AverageMeter_update (v : Q) (m : AverageMeter) : AverageMeter :=
  let s := (sum m + v)%Q in
  let c := count m + 1 in
  {| val := v; avg := (s / inject_Z c)%Q; sum := s; count := c |}.

(** ** TrainingLog (trainer.py, lines 16-40) *)

Record TrainingLog := mkLog {
  batch_time : AverageMeter;
  data_time : AverageMeter;
  losses : AverageMeter;
  top1 : AverageMeter;
  top5 : AverageMeter
}.

Definition TrainingLog_new : TrainingLog :=
  {| batch_time := AverageMeter_new;
     data_time := AverageMeter_new;
     losses := AverageMeter_new;
     top1 := AverageMeter_new;
     top5 := AverageMeter_new |}.

Definition TrainingLog_reset (l : TrainingLog) : TrainingLog :=
  {| batch_time := AverageMeter_reset (batch_time l);
     data_time := AverageMeter_reset (data_time l);
     losses := AverageMeter_reset (losses l);
     top1 := AverageMeter_reset (top1 l);
     top5 := AverageMeter_reset (top5 l) |}.

Definition upd_batch_time (f : AverageMeter -> AverageMeter) (l : TrainingLog) :=
  {| batch_time := f (batch_time l); data_time := data_time l;
     losses := losses l; top1 := top1 l; top5 := top5 l |}.
Definition upd_data_time (f : AverageMeter -> AverageMeter) (l : TrainingLog) :=
  {| batch_time := batch_time l; data_time := f (data_time l);
     losses := losses l; top1 := top1 l; top5 := top5 l |}.
Definition upd_losses (f : AverageMeter -> AverageMeter) (l : TrainingLog) :=
  {| batch_time := batch_time l; data_time := data_time l;
     losses := f (losses l); top1 := top1 l; top5 := top5 l |}.
Definition upd_top1 (f : AverageMeter -> AverageMeter) (l : TrainingLog) :=
  {| batch_time := batch_time l; data_time := data_time l;
     losses := losses l; top1 := f (top1 l); top5 := top5 l |}.
Definition upd_top5 (f : AverageMeter -> AverageMeter) (l : TrainingLog) :=
  {| batch_time := batch_time l; data_time := data_time l;
     losses := losses l; top1 := top1 l; top5 := f (top5 l) |}.

(** What [print] writes.  [TrainingLog.log] formats the ten meter readings;
    the record keeps the readings themselves. *)
Inductive LogTag : Type :=
| BatchNo (batch : Z)
| BatchLabel (label : string).

Inductive Output : Type :=
| OutText (s : string)
| OutLog (tag : LogTag) (snapshot : TrainingLog)
| OutEpoch (epoch : Z) (lr : Q)
| OutNum (q : Q).

(** ** The learning-rate scheduler *)

(** Modelled from the spec: [Scheme] (class of the missing module
    [trainer.scheme]): the initial learning rate and the warm-up length. *)
Record Scheme := mkScheme {
  init_lr : Q;
  warm_up_epoch : Z
}.

(** The optimizer that [get_optimizer] builds; [grad] stands for the
    gradients accumulated in the parameters the optimizer holds. *)
Inductive OptimKind : Type := SGD | Adam.

Record Optimizer := mkOptimizer {
  kind : OptimKind;
  group_lr : Q;
  momentum : Q;
  weight_decay : Q;
  grad : Q
}.

(** trainer.py, lines 10-14.  Any other name falls off the end of the
    function: Python returns [None]. *)
Definition get_optimizer (optimizer_name : string) : option Optimizer :=
  if String.eqb optimizer_name "SGD" then
    Some {| kind := SGD; group_lr := 1 # 10; momentum := 9 # 10;
            weight_decay := 5 # 10000; grad := 0 |}
  else if String.eqb optimizer_name "Adam" then
    Some {| kind := Adam; group_lr := 1 # 1000; momentum := 0;
            weight_decay := 0; grad := 0 |}
  else None.

(** Modelled from the spec: [Scheduler] (module [trainer.scheduler] is not
    part of the sources): [{scheme, optimizer_ref, batches_per_epoch, epoch,
    batch_in_epoch, lr}]. *)
Record Scheduler := mkScheduler {
  scheme : Scheme;
  optimizer : option Optimizer;
  batches_per_epoch : Z;
  epoch : Z;
  batch_in_epoch : Z;
  lr : Q
}.

(** ** The quantization scheduler *)

Inductive QState : Type := Searching | Converged | Failed.

(** Modelled from the spec: one quantization parameter per quantizable
    tensor (module [models.Q_modules] is not part of the sources). *)
Record QParam := mkQParam {
  q_id : nat;
  K : Q;
  lo : Q;
  hi : Q;
  sensitivity : Q;
  target_bits : Z;
  state : QState
}.

(** Modelled from the spec: [Q_Scheme], the quantization targets. *)
Record Q_Scheme := mkQScheme {
  target_bit_W : Z;
  target_bit_bA : Z;
  K_update_mode : string
}.

(** Modelled from the spec: [Q_Scheduler] (module [trainer.Q_scheduler] is
    not part of the sources); [q_params] is the Q-Optimizer's ordered
    collection. *)
Record Q_Scheduler := mkQScheduler {
  q_scheme : Q_Scheme;
  q_params : list QParam;
  q_batches_per_epoch : Z
}.

(** ** The model and the data *)

Inductive Mode : Type := TrainMode | EvalMode.

Record Model := mkModel {
  mode : Mode;
  registered : bool
}.

(** One item of a data loader, together with what the collaborators compute
    from it in the pass that consumes it: the loss, the top-1 and top-5
    precision, the gradient that [loss.backward()] accumulates, and the
    sensitivity contributions [(id, delta)] of the quantized tensors. *)
Record Batch := mkBatch {
  b_loss : Q;
  b_prec1 : Q;
  b_prec5 : Q;
  b_grad : Q;
  b_sens : list (nat * Q)
}.

(** ** JSON documents and files *)

#[local] Set Warnings "-register-all".

Inductive Json : Type :=
| JNull
| JInt (z : Z)
| JNum (q : Q)
| JStr (s : string)
| JObj (fields : list (string * Json)).

Inductive File : Type :=
| FJson (doc : Json)
| FRaw (text : string).

(** ** Collaborator calls *)

(** The calls that leave the Trainer and the driver, in the order they are
    made.  A call is recorded when it is made, whether or not it returns. *)
Inductive Call : Type :=
| CModelTrain (m : loc)
| CModelEval (m : loc)
| CModelRegister (m : loc)
| CModelForward (m : loc)
| CZeroSensitivity (q : loc)
| CQRegister (q : loc)
| CQStep (q : loc)
| CFetch (batch : nat)
| CZeroGrad (s : loc)
| CToDevice (device : string)
| CCriterion (c : loc)
| CBackward (batch : nat)
| CSchedStep (s : loc)
| CUpdateEpoch (s : loc)
| CAccuracy
| COpen (path : string)
| CSetup (what : string).

(** ** The world *)

Record World := mkWorld {
  w_models : gmap loc Model;
  w_schedulers : gmap loc Scheduler;
  w_q_schedulers : gmap loc Q_Scheduler;
  w_logs : gmap loc TrainingLog;
  w_files : gmap string File;
  w_stdout : list Output;
  w_trace : list Call;
  w_ticks : nat;
  w_next : loc
}.

Definition set_models (f : gmap loc Model -> gmap loc Model) (w : World) :=
  mkWorld (f (w_models w)) (w_schedulers w) (w_q_schedulers w) (w_logs w)
          (w_files w) (w_stdout w) (w_trace w) (w_ticks w) (w_next w).
Definition set_schedulers (f : gmap loc Scheduler -> gmap loc Scheduler) (w : World) :=
  mkWorld (w_models w) (f (w_schedulers w)) (w_q_schedulers w) (w_logs w)
          (w_files w) (w_stdout w) (w_trace w) (w_ticks w) (w_next w).
Definition set_q_schedulers (f : gmap loc Q_Scheduler -> gmap loc Q_Scheduler) (w : World) :=
  mkWorld (w_models w) (w_schedulers w) (f (w_q_schedulers w)) (w_logs w)
          (w_files w) (w_stdout w) (w_trace w) (w_ticks w) (w_next w).
Definition set_logs (f : gmap loc TrainingLog -> gmap loc TrainingLog) (w : World) :=
  mkWorld (w_models w) (w_schedulers w) (w_q_schedulers w) (f (w_logs w))
          (w_files w) (w_stdout w) (w_trace w) (w_ticks w) (w_next w).
Definition set_files (f : gmap string File -> gmap string File) (w : World) :=
  mkWorld (w_models w) (w_schedulers w) (w_q_schedulers w) (w_logs w)
          (f (w_files w)) (w_stdout w) (w_trace w) (w_ticks w) (w_next w).
Definition set_stdout (f : list Output -> list Output) (w : World) :=
  mkWorld (w_models w) (w_schedulers w) (w_q_schedulers w) (w_logs w)
          (w_files w) (f (w_stdout w)) (w_trace w) (w_ticks w) (w_next w).
Definition set_trace (f : list Call -> list Call) (w : World) :=
  mkWorld (w_models w) (w_schedulers w) (w_q_schedulers w) (w_logs w)
          (w_files w) (w_stdout w) (f (w_trace w)) (w_ticks w) (w_next w).
Definition set_ticks (f : nat -> nat) (w : World) :=
  mkWorld (w_models w) (w_schedulers w) (w_q_schedulers w) (w_logs w)
          (w_files w) (w_stdout w) (w_trace w) (f (w_ticks w)) (w_next w).
Definition set_next (f : loc -> loc) (w : World) :=
  mkWorld (w_models w) (w_schedulers w) (w_q_schedulers w) (w_logs w)
          (w_files w) (w_stdout w) (w_trace w) (w_ticks w) (f (w_next w)).

Definition empty_world : World :=
  mkWorld ∅ ∅ ∅ ∅ ∅ [] [] 0%nat 0%nat.

(** ** The environment *)

(** What the embedding does not determine: the wall clock read by
    [time.time()], which collaborator call raises (indexed by the number of
    calls made before it), and the parts of the missing modules that the
    repository's description leaves open. *)
Record Env := mkEnv {
  clock : nat -> Q;
  fault : nat -> option Exn;
  (** the learning rate after warm-up: the decay policy is not given *)
  post_warmup_lr : Scheme -> Z -> Z -> Z -> Q;
  (** one call of [Q_Scheduler.step()]: the bracket search *)
  q_search : Q_Scheduler -> Q_Scheduler;
  (** [datetime.now()] formatted as day and as time *)
  day_stamp : string;
  time_stamp0 : string;
  (** the data sets behind the two loaders *)
  train_set : list Batch;
  test_set : list Batch;
  (** the quantizable tensors of the model *)
  model_q_params : list QParam
}.

(** ** The monad *)

Definition M (A : Type) : Type := World -> Res A * World.

Definition ret {A} (a : A) : M A := fun w => (Ok a, w).

Definition raise {A} (e : Exn) : M A := fun w => (Err e, w).

Definition bind {A B} (c : M A) (k : A -> M B) : M B :=
  fun w => match c w with
           | (Ok a, w1) => k a w1
           | (Err e, w1) => (Err e, w1)
           end.

Notation "'let*' x ':=' c 'in' k" := (bind c (fun x => k))
  (at level 10, x pattern, c at level 100, k at level 200).
Notation "c ';;' k" := (bind c (fun _ => k))
  (at level 100, k at level 200, right associativity).

Definition modify (f : World -> World) : M unit := fun w => (Ok tt, f w).

Definition gets {A} (f : World -> A) : M A := fun w => (Ok (f w), w).

Definition when (b : bool) (c : M unit) : M unit := if b then c else ret tt.

Definition print (o : Output) : M unit := modify (set_stdout (fun out => out ++ [o])).

Section WithEnv.
Variable env : Env.

(** [time.time()] *)
Definition time_time : M Q :=
  fun w => (Ok (clock env (w_ticks w)), set_ticks S w).

(** A collaborator call: it is recorded, then it raises if the environment
    says so or if the callee itself fails, and otherwise has its effect. *)
Definition call (c : Call) (eff : World -> Res World) : M unit :=
  fun w =>
    let w1 := set_trace (fun t => t ++ [c]) w in
    match fault env (length (w_trace w)) with
    | Some e => (Err e, w1)
    | None =>
        match eff w1 with
        | Ok w2 => (Ok tt, w2)
        | Err e => (Err e, w1)
        end
    end.

Definition no_effect : World -> Res World := fun w => Ok w.

End WithEnv.

(** ** What the collaborators do to the store *)

#[global] Instance Scheduler_inhabited : Inhabited Scheduler :=
  populate (mkScheduler (mkScheme 0 0) None 0 0 0 0).
#[global] Instance Q_Scheduler_inhabited : Inhabited Q_Scheduler :=
  populate (mkQScheduler (mkQScheme 0 0 "") [] 0).
#[global] Instance TrainingLog_inhabited : Inhabited TrainingLog :=
  populate TrainingLog_new.

Definition get_scheduler (s : loc) (w : World) : Scheduler :=
  w_schedulers w !!! s.
Definition get_q_scheduler (q : loc) (w : World) : Q_Scheduler :=
  w_q_schedulers w !!! q.
Definition get_log (l : loc) (w : World) : TrainingLog :=
  w_logs w !!! l.

Definition with_grad (f : Q -> Q) (o : Optimizer) : Optimizer :=
  {| kind := kind o; group_lr := group_lr o; momentum := momentum o;
     weight_decay := weight_decay o; grad := f (grad o) |}.

Definition with_group_lr (r : Q) (o : Optimizer) : Optimizer :=
  {| kind := kind o; group_lr := r; momentum := momentum o;
     weight_decay := weight_decay o; grad := grad o |}.

Definition with_optimizer (f : Optimizer -> Optimizer) (s : Scheduler) : Scheduler :=
  {| scheme := scheme s; optimizer := f <$> optimizer s;
     batches_per_epoch := batches_per_epoch s; epoch := epoch s;
     batch_in_epoch := batch_in_epoch s; lr := lr s |}.

Section Collaborators.
Variable env : Env.

(** Modelled from the spec: [Scheduler.get_lr(epoch, batch_in_epoch)], the
    linear ramp [init_lr * (epoch*batches_per_epoch + batch_in_epoch + 1) /
    (warm_up_epoch*batches_per_epoch)] during warm-up, the environment's
    policy afterwards. *)
Definition get_lr (s : Scheduler) (e b : Z) : Q :=
  if e <? warm_up_epoch (scheme s) then
    (init_lr (scheme s)
     * inject_Z (e * batches_per_epoch s + b + 1)
     / inject_Z (warm_up_epoch (scheme s) * batches_per_epoch s))%Q
  else post_warmup_lr env (scheme s) (batches_per_epoch s) e b.

(** Modelled from the spec: [Scheduler.zero_grad()] delegates to the owned
    optimizer and changes no state of the scheduler.  Without an optimizer
    ([get_optimizer] returned [None]) the delegation is an attribute access
    on [None]. *)
Definition Scheduler_zero_grad (s : Scheduler) : Res Scheduler :=
  match optimizer s with
  | Some _ => Ok (with_optimizer (with_grad (fun _ => 0%Q)) s)
  | None => Err (AttributeError "zero_grad")
  end.

(** Modelled from the spec: [Scheduler.step()] recomputes [lr], applies it
    to the optimizer's parameter groups, then advances [batch_in_epoch]. *)
Definition Scheduler_step (s : Scheduler) : Res Scheduler :=
  match optimizer s with
  | Some o =>
      let r := get_lr s (epoch s) (batch_in_epoch s) in
      Ok {| scheme := scheme s; optimizer := Some (with_group_lr r o);
            batches_per_epoch := batches_per_epoch s; epoch := epoch s;
            batch_in_epoch := batch_in_epoch s + 1; lr := r |}
  | None => Err (AttributeError "param_groups")
  end.

(** Modelled from the spec: [Scheduler.update_epoch()] advances [epoch] and
    resets [batch_in_epoch] to 0. *)
Definition Scheduler_update_epoch (s : Scheduler) : Scheduler :=
  {| scheme := scheme s; optimizer := optimizer s;
     batches_per_epoch := batches_per_epoch s; epoch := epoch s + 1;
     batch_in_epoch := 0; lr := lr s |}.

(** [loss.backward()] accumulates the batch's gradient in the parameters
    held by the optimizer. *)
Definition backward_into (g : Q) (s : Scheduler) : Scheduler :=
  with_optimizer (with_grad (fun g0 => (g0 + g)%Q)) s.

Definition with_q_params (f : list QParam -> list QParam) (q : Q_Scheduler) : Q_Scheduler :=
  {| q_scheme := q_scheme q; q_params := f (q_params q);
     q_batches_per_epoch := q_batches_per_epoch q |}.

(** Modelled from the spec: [Q_Scheduler.zero_sensitivity()] sets every
    parameter's [sensitivity] to 0 and its [state] to [Searching]. *)
Definition zero_param (p : QParam) : QParam :=
  {| q_id := q_id p; K := K p; lo := lo p; hi := hi p; sensitivity := 0;
     target_bits := target_bits p; state := Searching |}.

Definition Q_Scheduler_zero_sensitivity (q : Q_Scheduler) : Q_Scheduler :=
  with_q_params (map zero_param) q.

(** Modelled from the spec: the [accumulate(id, delta)] capability through
    which the compute collaborator adds to a parameter's sensitivity. *)
Definition accumulate_param (id : nat) (delta : Q) (p : QParam) : QParam :=
  if Nat.eqb (q_id p) id then
    {| q_id := q_id p; K := K p; lo := lo p; hi := hi p;
       sensitivity := (sensitivity p + delta)%Q;
       target_bits := target_bits p; state := state p |}
  else p.

Definition Q_Scheduler_accumulate (q : Q_Scheduler) (d : nat * Q) : Q_Scheduler :=
  with_q_params (map (accumulate_param (fst d) (snd d))) q.

(** Modelled from the spec: [Q_Scheduler.register()] performs no search; it
    confirms that every parameter has a bracket with [lo < hi] and fails with
    a convergence diagnostic for the first one that has not. *)
Definition degenerate (p : QParam) : bool := Qle_bool (hi p) (lo p).

Definition Q_Scheduler_register (q : Q_Scheduler) : Res Q_Scheduler :=
  match List.find degenerate (q_params q) with
  | Some p => Err (ConvergenceFailure (q_id p))
  | None => Ok q
  end.

(** Modelled from the spec: [Q_Scheduler.step()], one bracket-narrowing step
    per parameter; the search itself is the environment's. *)
Definition Q_Scheduler_step (q : Q_Scheduler) : Q_Scheduler := q_search env q.

(** The same, as effects on the store. *)
Definition on_scheduler (s : loc) (f : Scheduler -> Res Scheduler) : World -> Res World :=
  fun w => match f (get_scheduler s w) with
           | Ok s' => Ok (set_schedulers (alter (fun _ => s') s) w)
           | Err e => Err e
           end.

Definition on_q_scheduler (q : loc) (f : Q_Scheduler -> Res Q_Scheduler) : World -> Res World :=
  fun w => match f (get_q_scheduler q w) with
           | Ok q' => Ok (set_q_schedulers (alter (fun _ => q') q) w)
           | Err e => Err e
           end.

Definition on_model (m : loc) (f : Model -> Model) : World -> Res World :=
  fun w => Ok (set_models (alter f m) w).

Definition on_log (l : loc) (f : TrainingLog -> TrainingLog) : M unit :=
  modify (set_logs (alter f l)).

Definition set_mode (md : Mode) (m : Model) : Model :=
  {| mode := md; registered := registered m |}.

Definition set_registered (m : Model) : Model :=
  {| mode := mode m; registered := true |}.

End Collaborators.

(** ** Trainer (trainer.py, lines 42-144) *)

Record Trainer := mkTrainer {
  model : loc;
  scheduler : loc;
  q_scheduler : loc;
  criterion : loc;
  train_loader : list Batch;
  test_loader : list Batch;
  device : string;
  training_log : loc;
  log_freq : Z;
  best_prec : Z
}.

(** The class object.  The [def __init__] statement evaluates its default
    values when it is executed, once, so the class carries the one
    [TrainingLog()] that was built then. *)
Record TrainerClass := mkTrainerClass {
  default_training_log : loc
}.

(** [TrainingLog()]: a new object in the store. *)
Definition TrainingLog_alloc : M loc :=
  fun w => (Ok (w_next w),
            set_next S (set_logs (insert (w_next w) TrainingLog_new) w)).

(** Executing the [class Trainer] statement (importing the module). *)
Definition define_Trainer : M TrainerClass :=
  let* l := TrainingLog_alloc in
  ret {| default_training_log := l |}.

(** [Trainer.__init__]; [None] for an argument the caller leaves out. *)
Definition Trainer__init__ (cls : TrainerClass)
    (model scheduler q_scheduler criterion : loc)
    (train_loader test_loader : list Batch)
    (device : option string) (training_log : option loc)
    (log_freq : option Z) : Trainer :=
  {| model := model;
     scheduler := scheduler;
     q_scheduler := q_scheduler;
     criterion := criterion;
     train_loader := train_loader;
     test_loader := test_loader;
     device := default "cuda:0" device;
     training_log := default (default_training_log cls) training_log;
     log_freq := default 10 log_freq;
     best_prec := 0 |}.

(** [TrainingLog.log(batch)] prints the meters. *)
Definition TrainingLog_log (l : loc) (tag : LogTag) : M unit :=
  let* snapshot := gets (get_log l) in
  print (OutLog tag snapshot).

(** [a % b == 0] for Python integers: division by zero raises, and the
    remainder has the sign of [b], as [Z.modulo] has. *)
Definition py_mod_is_zero (a b : Z) : M bool :=
  if b =? 0 then raise ZeroDivisionError else ret (a mod b =? 0).

Section TrainerMethods.
Variable env : Env.

(** The model's forward pass: the quantized tensors report their
    sensitivity contributions to the quantization scheduler. *)
Definition model_forward (q : loc) (deltas : list (nat * Q)) : World -> Res World :=
  on_q_scheduler q (fun x => Ok (fold_left Q_Scheduler_accumulate deltas x)).

(** lines 62-66 *)
Definition register (self : Trainer) (dummy_input : list Z) : M unit :=
  call env (CModelRegister (model self)) (on_model (model self) set_registered);;
  call env (CModelForward (model self)) (model_forward (q_scheduler self) []);;
  call env (CQRegister (q_scheduler self))
       (on_q_scheduler (q_scheduler self) Q_Scheduler_register);;
  print (OutText "Q_Scheduler Register Done.").

(** lines 87-111: the body of the batch loop; it returns the new value of
    the local [time_stamp]. *)
Definition forward_batch (self : Trainer) (train : bool)
    (batch : nat) (b : Batch) (time_stamp : Q) : M Q :=
  let* t := time_time env in
  on_log (training_log self) (upd_data_time (AverageMeter_update (t - time_stamp)%Q));;
  let* time_stamp := time_time env in
  call env (CZeroGrad (scheduler self))
       (on_scheduler (scheduler self) Scheduler_zero_grad);;
  call env (CToDevice (device self)) no_effect;;
  call env (CToDevice (device self)) no_effect;;
  call env (CModelForward (model self)) (model_forward (q_scheduler self) (b_sens b));;
  call env (CCriterion (criterion self)) no_effect;;
  when train
    (call env (CBackward batch)
          (on_scheduler (scheduler self) (fun s => Ok (backward_into (b_grad b) s)));;
     call env (CSchedStep (scheduler self))
          (on_scheduler (scheduler self) (Scheduler_step env)));;
  call env CAccuracy no_effect;;
  let* t := time_time env in
  on_log (training_log self) (upd_batch_time (AverageMeter_update (t - time_stamp)%Q));;
  let* time_stamp := time_time env in
  on_log (training_log self) (upd_losses (AverageMeter_update (b_loss b)));;
  on_log (training_log self) (upd_top1 (AverageMeter_update (b_prec1 b)));;
  on_log (training_log self) (upd_top5 (AverageMeter_update (b_prec5 b)));;
  let* due := py_mod_is_zero (Z.of_nat batch) (log_freq self) in
  when due (TrainingLog_log (training_log self) (BatchNo (Z.of_nat batch)));;
  ret time_stamp.

(** line 85: [for batch, (inputs, labels) in enumerate(dataloader)] *)
Fixpoint forward_loop (self : Trainer) (train : bool)
    (dataloader : list Batch) (batch : nat) (time_stamp : Q) : M unit :=
  match dataloader with
  | [] => ret tt
  | b :: rest =>
      call env (CFetch batch) no_effect;;
      let* time_stamp := forward_batch self train batch b time_stamp in
      forward_loop self train rest (S batch) time_stamp
  end.

(** lines 76-82 *)
Definition forward_begin (self : Trainer) (train : bool) : M unit :=
  (if train then
     call env (CModelTrain (model self)) (on_model (model self) (set_mode TrainMode));;
     call env (CZeroSensitivity (q_scheduler self))
          (on_q_scheduler (q_scheduler self)
                          (fun q => Ok (Q_Scheduler_zero_sensitivity q)))
   else
     call env (CModelEval (model self)) (on_model (model self) (set_mode EvalMode)));;
  on_log (training_log self) TrainingLog_reset.

(** lines 113-117 *)
Definition forward_end (self : Trainer) (epoch : Z) (train : bool) : M unit :=
  when train
    (call env (CUpdateEpoch (scheduler self))
          (on_scheduler (scheduler self) (fun s => Ok (Scheduler_update_epoch s)));;
     call env (CQStep (q_scheduler self))
          (on_q_scheduler (q_scheduler self) (fun q => Ok (Q_Scheduler_step env q))));;
  let* r := gets (fun w => lr (get_scheduler (scheduler self) w)) in
  print (OutEpoch epoch r).

(** lines 74-117 *)
Definition forward (self : Trainer) (epoch : Z) (dataloader : list Batch)
    (train : bool) : M unit :=
  forward_begin self train;;
  let* time_stamp := time_time env in
  forward_loop self train dataloader 0%nat time_stamp;;
  forward_end self epoch train.

(** lines 68-72 *)
Definition train (self : Trainer) (epoch : Z) : M unit :=
  forward self epoch (train_loader self) true.

Definition test (self : Trainer) (epoch : Z) : M unit :=
  forward self epoch (test_loader self) false.

(** [scheme.__dict__] and [q_scheme.__dict__] *)
Definition Scheme_dict (s : Scheme) : Json :=
  JObj [("init_lr", JNum (init_lr s)); ("warm_up_epoch", JInt (warm_up_epoch s))].

Definition Q_Scheme_dict (q : Q_Scheme) : Json :=
  JObj [("target_bit_W", JInt (target_bit_W q));
        ("target_bit_bA", JInt (target_bit_bA q));
        ("K_update_mode", JStr (K_update_mode q))].

(** lines 119-127.  [open(path, 'w')] creates or truncates the file;
    [json.dump] then writes the document. *)
Definition save_config (self : Trainer) (save_dir : string) : M unit :=
  let trainer_config_path := (save_dir ++ "/trainer_config.json")%string in
  call env (COpen trainer_config_path)
       (fun w => Ok (set_files (insert trainer_config_path (FRaw "")) w));;
  let* s := gets (get_scheduler (scheduler self)) in
  let* q := gets (get_q_scheduler (q_scheduler self)) in
  let train_config :=
    JObj [("Common", Scheme_dict (scheme s));
          ("Quantization", Q_Scheme_dict (q_scheme q))] in
  modify (set_files (insert trainer_config_path (FJson train_config)));;
  print (OutText ("Successful Dumping Trainer Config to " ++ trainer_config_path)%string).

(** lines 129-132.  [open(path, 'r')] needs the file; [json.load] needs a
    JSON document; the parsed value stays in a local variable. *)
Definition load_config (self : Trainer) (trainer_config_path : string) : M unit :=
  call env (COpen trainer_config_path)
       (fun w => match w_files w !! trainer_config_path with
                 | Some _ => Ok w
                 | None => Err (FileNotFoundError trainer_config_path)
                 end);;
  let* f := gets (fun w => w_files w !! trainer_config_path) in
  match f with
  | Some (FJson trainer_config) =>
      print (OutText ("Successful Loading Trainer Config from "
                      ++ trainer_config_path)%string)
  | _ => raise JSONDecodeError
  end.

(** lines 134-144 *)
Definition save_state (self : Trainer) (save_dir : string) : M unit := ret tt.
Definition load_state (self : Trainer) (trainer_state_path : string) : M unit := ret tt.
Definition save_model (self : Trainer) (save_dir : string) : M unit := ret tt.
Definition load_model (self : Trainer) (model_path : string) : M unit := ret tt.

End TrainerMethods.

(** ** Calling the class from the driver *)

(** The values the driver passes by keyword. *)
Inductive PyVal : Type :=
| VNone
| VInt (z : Z)
| VNum (q : Q)
| VStr (s : string)
| VRef (l : loc)
| VLoader (batches : list Batch)
| VMethod (name : string).

(** The parameters of [Trainer.__init__] after [self] (lines 46-48); the
    first six have no default. *)
Definition Trainer_params : list string :=
  ["model"; "scheduler"; "q_scheduler"; "criterion"; "train_loader";
   "test_loader"; "device"; "training_log"; "log_freq"].

Definition Trainer_required : list string :=
  ["model"; "scheduler"; "q_scheduler"; "criterion"; "train_loader";
   "test_loader"].

Definition mem_string (s : string) (l : list string) : bool :=
  existsb (String.eqb s) l.

Fixpoint kwarg (name : string) (kwargs : list (string * PyVal)) : option PyVal :=
  match kwargs with
  | [] => None
  | (k, v) :: rest => if String.eqb k name then Some v else kwarg name rest
  end.

Definition as_ref (what : string) (v : option PyVal) : Res loc :=
  match v with
  | Some (VRef l) => Ok l
  | _ => Err (TypeError ("not an object: " ++ what))
  end.

Definition as_loader (what : string) (v : option PyVal) : Res (list Batch) :=
  match v with
  | Some (VLoader b) => Ok b
  | _ => Err (TypeError ("not a loader: " ++ what))
  end.

Definition res_bind {A B} (r : Res A) (k : A -> Res B) : Res B :=
  match r with Ok a => k a | Err e => Err e end.

(** Calling [Trainer] with keywords: Python binds the keywords to the parameters of
    [__init__] before running its body.  A keyword that names no parameter
    is a [TypeError]; so is a parameter without default that gets no value.
    Values are then read at the types the annotations and the driver give
    them. *)
Definition Trainer_call (cls : TrainerClass) (kwargs : list (string * PyVal))
  : Res Trainer :=
  match List.find (fun kv => negb (mem_string (fst kv) Trainer_params)) kwargs with
  | Some (k, _) =>
      Err (TypeError ("__init__() got an unexpected keyword argument '" ++ k ++ "'"))
  | None =>
      match List.find (fun p => negb (mem_string p (map fst kwargs))) Trainer_required with
      | Some p =>
          Err (TypeError ("__init__() missing 1 required positional argument: '" ++ p ++ "'"))
      | None =>
          res_bind (as_ref "model" (kwarg "model" kwargs)) (fun m =>
          res_bind (as_ref "scheduler" (kwarg "scheduler" kwargs)) (fun s =>
          res_bind (as_ref "q_scheduler" (kwarg "q_scheduler" kwargs)) (fun q =>
          res_bind (as_ref "criterion" (kwarg "criterion" kwargs)) (fun c =>
          res_bind (as_loader "train_loader" (kwarg "train_loader" kwargs)) (fun tl =>
          res_bind (as_loader "test_loader" (kwarg "test_loader" kwargs)) (fun sl =>
          Ok (Trainer__init__ cls m s q c tl sl
                (match kwarg "device" kwargs with Some (VStr d) => Some d | _ => None end)
                (match kwarg "training_log" kwargs with Some (VRef l) => Some l | _ => None end)
                (match kwarg "log_freq" kwargs with Some (VInt z) => Some z | _ => None end))))))))
      end
  end.

(** The names an instance of [Trainer] answers to: the attributes assigned
    in [__init__] (lines 50-59) and the methods of the class. *)
Definition Trainer_methods : list string :=
  ["register"; "train"; "test"; "forward"; "save_config"; "load_config";
   "save_state"; "load_state"; "save_model"; "load_model"].

Definition Trainer_getattr (self : Trainer) (name : string) : Res PyVal :=
  if String.eqb name "model" then Ok (VRef (model self))
  else if String.eqb name "scheduler" then Ok (VRef (scheduler self))
  else if String.eqb name "q_scheduler" then Ok (VRef (q_scheduler self))
  else if String.eqb name "criterion" then Ok (VRef (criterion self))
  else if String.eqb name "train_loader" then Ok (VLoader (train_loader self))
  else if String.eqb name "test_loader" then Ok (VLoader (test_loader self))
  else if String.eqb name "device" then Ok (VStr (device self))
  else if String.eqb name "training_log" then Ok (VRef (training_log self))
  else if String.eqb name "log_freq" then Ok (VInt (log_freq self))
  else if String.eqb name "best_prec" then Ok (VInt (best_prec self))
  else if mem_string name Trainer_methods then Ok (VMethod name)
  else Err (AttributeError name).

Definition lift {A} (r : Res A) : M A := fun w => (r, w).

(** ** The driver (train.py) *)

(** The parsed command line (lines 23-56). *)
Record Args := mkArgs {
  arg_seed : Z;
  arg_trainer_config : option string;
  arg_wandb_project : option string;
  arg_results_dir : string;
  arg_save : string;
  arg_log_freq : Z;
  arg_dataset : string;
  arg_datapath : string;
  arg_model : string;
  arg_input_size : Z;
  arg_model_config : string;
  arg_device : string;
  arg_workers : Z;
  arg_epochs : Z;
  arg_batch_size : Z;
  arg_optimizer : string;
  arg_warm_up_epoch : Z;
  arg_lr : Q;
  arg_target_bit_W : Z;
  arg_target_bit_bA : Z;
  arg_K_update_mode : string
}.

(** The defaults of the parser. *)
Definition default_args : Args :=
  {| arg_seed := 123; arg_trainer_config := None; arg_wandb_project := None;
     arg_results_dir := "./results"; arg_save := ""; arg_log_freq := 10;
     arg_dataset := "cifar100"; arg_datapath := "/home/wch/data/cifar100";
     arg_model := "resnet_BFP"; arg_input_size := 32; arg_model_config := "";
     arg_device := "cuda:0"; arg_workers := 8; arg_epochs := 200;
     arg_batch_size := 128; arg_optimizer := "SGD"; arg_warm_up_epoch := 1;
     arg_lr := 1 # 10; arg_target_bit_W := 2; arg_target_bit_bA := 2;
     arg_K_update_mode := "BinarySearch" |}.

Definition opt_json (o : option string) : Json :=
  match o with Some s => JStr s | None => JNull end.

(** [args.__dict__] *)
Definition Args_dict (a : Args) : Json :=
  JObj [("seed", JInt (arg_seed a));
        ("trainer_config", opt_json (arg_trainer_config a));
        ("wandb_project", opt_json (arg_wandb_project a));
        ("results_dir", JStr (arg_results_dir a));
        ("save", JStr (arg_save a));
        ("log_freq", JInt (arg_log_freq a));
        ("dataset", JStr (arg_dataset a));
        ("datapath", JStr (arg_datapath a));
        ("model", JStr (arg_model a));
        ("input_size", JInt (arg_input_size a));
        ("model_config", JStr (arg_model_config a));
        ("device", JStr (arg_device a));
        ("workers", JInt (arg_workers a));
        ("epochs", JInt (arg_epochs a));
        ("batch_size", JInt (arg_batch_size a));
        ("optimizer", JStr (arg_optimizer a));
        ("warm_up_epoch", JInt (arg_warm_up_epoch a));
        ("lr", JNum (arg_lr a));
        ("target_bit_W", JInt (arg_target_bit_W a));
        ("target_bit_bA", JInt (arg_target_bit_bA a));
        ("K_update_mode", JStr (arg_K_update_mode a))].

(** New objects in the store. *)
Definition Model_alloc : M loc :=
  fun w => (Ok (w_next w),
            set_next S (set_models (insert (w_next w) (mkModel TrainMode false)) w)).

Definition Scheduler_alloc (s : Scheduler) : M loc :=
  fun w => (Ok (w_next w),
            set_next S (set_schedulers (insert (w_next w) s) w)).

Definition Q_Scheduler_alloc (q : Q_Scheduler) : M loc :=
  fun w => (Ok (w_next w),
            set_next S (set_q_schedulers (insert (w_next w) q) w)).

Definition object_alloc : M loc :=
  fun w => (Ok (w_next w), set_next S w).

(** [range(n)] *)
Definition py_range (n : Z) : list Z := map Z.of_nat (seq 0 (Z.to_nat n)).

Definition Qmax (a b : Q) : Q := if Qle_bool a b then b else a.

Section Driver.
Variable env : Env.

(** Modelled from the spec: the constructor of [Scheduler]; the counters
    start at 0 and [lr] at the value [get_lr] gives there. *)
Definition Scheduler_new (o : option Optimizer) (sc : Scheme) (n : Z) : Scheduler :=
  let s0 := mkScheduler sc o n 0 0 0 in
  mkScheduler sc o n 0 0 (get_lr env s0 0 0).

(** Modelled from the spec: the constructor of [Q_Scheduler] over the
    Q-Optimizer's parameters. *)
Definition Q_Scheduler_new (ps : list QParam) (qs : Q_Scheme) (n : Z) : Q_Scheduler :=
  mkQScheduler qs ps n.

(** [trainer.train_logger.log(label)]: the attribute is looked up first. *)
Definition log_through (self : Trainer) (attr label : string) : M unit :=
  let* v := lift (Trainer_getattr self attr) in
  match v with
  | VRef l => TrainingLog_log l (BatchLabel label)
  | _ => raise (AttributeError "log")
  end.

(** [trainer.train_logger.top1.avg] *)
Definition top1_avg_through (self : Trainer) (attr : string) : M Q :=
  let* v := lift (Trainer_getattr self attr) in
  match v with
  | VRef l => gets (fun w => avg (top1 (get_log l w)))
  | _ => raise (AttributeError "top1")
  end.

(** lines 150-159: one turn of the epoch loop; it returns the new value of
    the local [best_prec]. *)
Definition main_epoch (trainer : Trainer) (save_path : string)
    (best : Q) (epoch : Z) : M Q :=
  print (OutText "Train Epoch");;
  train env trainer epoch;;
  log_through trainer "train_logger" "END TRAIN";;
  print (OutText "Test Epoch");;
  test env trainer epoch;;
  log_through trainer "train_logger" "END TEST";;
  let* a := top1_avg_through trainer "train_logger" in
  let best := Qmax best a in
  when (epoch mod 5 =? 0)
       (save_model trainer (save_path ++ "/epoch_" ++ pretty epoch)%string);;
  ret best.

(** line 149: [for epoch in range(args.epochs)] *)
Fixpoint main_epochs (trainer : Trainer) (save_path : string)
    (best : Q) (epochs : list Z) : M Q :=
  match epochs with
  | [] => ret best
  | epoch :: rest =>
      let* best := main_epoch trainer save_path best epoch in
      main_epochs trainer save_path best rest
  end.

(** lines 139-162: what [main] does with the trainer once it has one. *)
Definition main_with (trainer : Trainer) (save_path : string) (args : Args) : M unit :=
  match arg_trainer_config args with
  | Some p => load_config env trainer p
  | None => ret tt
  end;;
  call env (CSetup "torch.zeros") no_effect;;
  register env trainer [arg_batch_size args; 3; arg_input_size args; arg_input_size args];;
  save_config env trainer save_path;;
  print (OutText "-------- Training --------");;
  let* best := main_epochs trainer save_path 0%Q (py_range (arg_epochs args)) in
  print (OutText "--------- Training Done ---------");;
  print (OutNum best).

Definition save_path_of (args : Args) : string :=
  let save_folder :=
    if String.eqb (arg_save args) "" then
      (arg_model args ++ "_" ++ time_stamp0 env)%string
    else arg_save args in
  (arg_results_dir args ++ "/" ++ day_stamp env ++ "/" ++ save_folder)%string.

(** lines 58-137: everything up to and including the construction of the
    trainer. *)
Definition main_setup (cls : TrainerClass) (args : Args) : M Trainer :=
  print (OutText "Global Setting...");;
  call env (CSetup "torch.manual_seed") no_effect;;
  call env (CSetup "torch.cuda.manual_seed_all") no_effect;;
  call env (CSetup "np.random.seed") no_effect;;
  let save_path := save_path_of args in
  call env (CSetup "os.path.exists, os.makedirs") no_effect;;
  print (OutText ("Save at " ++ save_path)%string);;
  call env (COpen (save_path ++ "/args.json")%string)
       (fun w => Ok (set_files (insert (save_path ++ "/args.json")%string (FRaw "")) w));;
  modify (set_files (insert (save_path ++ "/args.json")%string (FJson (Args_dict args))));;
  let wandb_log := bool_decide (is_Some (arg_wandb_project args)) in
  when wandb_log
       (print (OutText "Wandb Setting (Optional) ...");;
        call env (CSetup "wandb.init") no_effect);;
  print (OutText "-------- Data Loading ---------");;
  call env (CSetup "get_transform") no_effect;;
  call env (CSetup "get_transform") no_effect;;
  call env (CSetup "get_dataset") no_effect;;
  call env (CSetup "get_dataset") no_effect;;
  call env (CSetup "DataLoader") no_effect;;
  let train_loader := train_set env in
  call env (CSetup "DataLoader") no_effect;;
  let test_loader := test_set env in
  print (OutText "--------- Model Creating ---------");;
  call env (CSetup "resnet_BFP") no_effect;;
  let* model := Model_alloc in
  call env (CSetup "nn.CrossEntropyLoss") no_effect;;
  let* criterion := object_alloc in
  let optimizer := get_optimizer (arg_optimizer args) in
  let scheme := mkScheme (arg_lr args) (arg_warm_up_epoch args) in
  call env (CSetup "Scheduler") no_effect;;
  let* scheduler :=
    Scheduler_alloc (Scheduler_new optimizer scheme (Z.of_nat (length train_loader))) in
  call env (CSetup "Q_Optimizer") no_effect;;
  let q_optimizer := model_q_params env in
  let q_scheme := mkQScheme (arg_target_bit_W args) (arg_target_bit_bA args)
                            (arg_K_update_mode args) in
  call env (CSetup "Q_Scheduler") no_effect;;
  let* q_scheduler :=
    Q_Scheduler_alloc (Q_Scheduler_new q_optimizer q_scheme (Z.of_nat (length train_loader))) in
  print (OutText "Trainer Creating...");;
  let* wandb_logger :=
    (if wandb_log then
       call env (CSetup "WandbLogger") no_effect;;
       let* l := object_alloc in ret (VRef l)
     else ret VNone) in
  lift (Trainer_call cls
          [("model", VRef model);
           ("scheduler", VRef scheduler); ("q_scheduler", VRef q_scheduler);
           ("criterion", VRef criterion);
           ("train_loader", VLoader train_loader); ("test_loader", VLoader test_loader);
           ("device", VStr (arg_device args)); ("log_freq", VInt (arg_log_freq args));
           ("wandb_logger", wandb_logger)]).

(** lines 58-162 *)
Definition main (cls : TrainerClass) (args : Args) : M unit :=
  let* trainer := main_setup cls args in
  main_with trainer (save_path_of args) args.

(** Running the script: the imports define the class, then [main] runs. *)
Definition script (args : Args) : M unit :=
  let* cls := define_Trainer in
  main cls args.

End Driver.

(** * Vocabulary of the properties *)

(** An effect of a collaborator call never touches the trace. *)
Definition quiet (eff : World -> Res World) : Prop :=
  forall w w', eff w = Ok w' -> w_trace w' = w_trace w.

(** [emits c t]: whatever happens, [c] appends to the trace a prefix of [t],
    and all of [t] when it returns. *)
Definition emits {A} (c : M A) (t : list Call) : Prop :=
  forall w,
    (exists k, w_trace (snd (c w)) = w_trace w ++ firstn k t) /\
    (is_ok (fst (c w)) = true -> w_trace (snd (c w)) = w_trace w ++ t).

(** The calls of one pass over [n] batches, in order. *)
Definition body_calls (self : Trainer) (train : bool) (batch : nat) : list Call :=
  [CZeroGrad (scheduler self); CToDevice (device self);
   CToDevice (device self); CModelForward (model self); CCriterion (criterion self)]
  ++ (if train then [CBackward batch; CSchedStep (scheduler self)] else [])
  ++ [CAccuracy].

Definition batch_calls (self : Trainer) (train : bool) (batch : nat) : list Call :=
  CFetch batch :: body_calls self train batch.

Fixpoint loop_calls (self : Trainer) (train : bool) (n batch : nat) : list Call :=
  match n with
  | O => []
  | S n' => batch_calls self train batch ++ loop_calls self train n' (S batch)
  end.

Definition begin_calls (self : Trainer) (train : bool) : list Call :=
  if train then [CModelTrain (model self); CZeroSensitivity (q_scheduler self)]
  else [CModelEval (model self)].

Definition end_calls (self : Trainer) (train : bool) : list Call :=
  if train then [CUpdateEpoch (scheduler self); CQStep (q_scheduler self)] else [].

Definition pass_calls (self : Trainer) (train : bool) (n : nat) : list Call :=
  begin_calls self train ++ loop_calls self train n 0 ++ end_calls self train.


(** Kinds of calls, and how often a kind occurs in a trace. *)
Definition is_update_epoch (c : Call) : bool :=
  match c with CUpdateEpoch _ => true | _ => false end.
Definition is_q_step (c : Call) : bool :=
  match c with CQStep _ => true | _ => false end.
Definition is_zero_sensitivity (c : Call) : bool :=
  match c with CZeroSensitivity _ => true | _ => false end.
Definition is_sched_step (c : Call) : bool :=
  match c with CSchedStep _ => true | _ => false end.
Definition is_backward (c : Call) : bool :=
  match c with CBackward _ => true | _ => false end.
Definition is_zero_grad (c : Call) : bool :=
  match c with CZeroGrad _ => true | _ => false end.

Fixpoint count_calls (p : Call -> bool) (t : list Call) : nat :=
  match t with
  | [] => 0
  | c :: rest => ((if p c then 1 else 0) + count_calls p rest)%nat
  end.



(** What a scheduler and a quantization parameter keep of their state when
    gradients and sensitivities are set aside. *)
Definition scheduler_view (s : Scheduler)
  : Scheme * option (OptimKind * Q * Q * Q) * Z * Z * Z * Q :=
  (scheme s,
   (fun o => (kind o, group_lr o, momentum o, weight_decay o)) <$> optimizer s,
   batches_per_epoch s, epoch s, batch_in_epoch s, lr s).

Definition param_view (p : QParam) : nat * Q * Q * Q * Z * QState :=
  (q_id p, K p, lo p, hi p, target_bits p, state p).

Definition q_scheduler_view (q : Q_Scheduler)
  : Q_Scheme * list (nat * Q * Q * Q * Z * QState) * Z :=
  (q_scheme q, map param_view (q_params q), q_batches_per_epoch q).

(** The schedulers and the quantization parameters of [w'] are those of
    [w], up to gradients and sensitivities. *)
Definition same_schedules (w w' : World) : Prop :=
  (forall s, scheduler_view (get_scheduler s w') = scheduler_view (get_scheduler s w))
  /\ (forall q, q_scheduler_view (get_q_scheduler q w')
                = q_scheduler_view (get_q_scheduler q w)).

(** Every object and every file of [w'] is as in [w]: only the trace of
    calls and the printed output may differ. *)
Definition same_store (w w' : World) : Prop :=
  w_models w' = w_models w
  /\ w_schedulers w' = w_schedulers w
  /\ w_q_schedulers w' = w_q_schedulers w
  /\ w_logs w' = w_logs w
  /\ w_files w' = w_files w
  /\ w_ticks w' = w_ticks w
  /\ w_next w' = w_next w.

(** [keeps R c]: however [c] ends, it leaves a store related by [R] to the
    one it started in. *)
Definition keeps (R : World -> World -> Prop) {A} (c : M A) : Prop :=
  forall w, R w (snd (c w)).

(** [hoare I c E]: started in a store satisfying [I], the computation [c]
    either returns in a store satisfying [I] or raises an exception in
    [E]. *)
Definition hoare (I : World -> Prop) {A} (c : M A) (E : Exn -> Prop) : Prop :=
  forall w, I w ->
    match c w with
    | (Ok _, w') => I w'
    | (Err e, _) => E e
    end.

(** [never_returns c]: [c] always ends with an exception. *)
Definition never_returns {A} (c : M A) : Prop :=
  forall w, is_ok (fst (c w)) = false.

(** The trainer's scheduler is in the store and has an optimizer. *)
Definition has_optimizer (self : Trainer) (w : World) : Prop :=
  exists s o, w_schedulers w !! scheduler self = Some s /\ optimizer s = Some o.

(** No collaborator call raises of its own. *)
Definition no_fault (env : Env) : Prop := forall k, fault env k = None.

(** The trainer with another [log_freq]. *)
Definition with_log_freq (f : Z) (self : Trainer) : Trainer :=
  {| model := model self; scheduler := scheduler self;
     q_scheduler := q_scheduler self; criterion := criterion self;
     train_loader := train_loader self; test_loader := test_loader self;
     device := device self; training_log := training_log self;
     log_freq := f; best_prec := best_prec self |}.

(** The calls [main] makes before it calls [Trainer]. *)
Definition setup_calls (env : Env) (args : Args) : list Call :=
  [CSetup "torch.manual_seed"; CSetup "torch.cuda.manual_seed_all";
   CSetup "np.random.seed"; CSetup "os.path.exists, os.makedirs";
   COpen (save_path_of env args ++ "/args.json")%string]
  ++ (if bool_decide (is_Some (arg_wandb_project args))
      then [CSetup "wandb.init"] else [])
  ++ [CSetup "get_transform"; CSetup "get_transform"; CSetup "get_dataset";
      CSetup "get_dataset"; CSetup "DataLoader"; CSetup "DataLoader";
      CSetup "resnet_BFP"; CSetup "nn.CrossEntropyLoss"; CSetup "Scheduler";
      CSetup "Q_Optimizer"; CSetup "Q_Scheduler"]
  ++ (if bool_decide (is_Some (arg_wandb_project args))
      then [CSetup "WandbLogger"] else []).

(** Calls on the model, the schedulers, the criterion and the loaders: all
    but the driver's set-up calls and file openings. *)
Definition is_trainer_call (c : Call) : bool :=
  match c with
  | CSetup _ | COpen _ => false
  | _ => true
  end.

(** The path of the configuration file [save_config] writes. *)
Definition config_path (save_dir : string) : string :=
  (save_dir ++ "/trainer_config.json")%string.

(** The file at [path] is in [w'] what it is in [w]. *)
Definition same_file (path : string) (w w' : World) : Prop :=
  w_files w' !! path = w_files w !! path.

(** The message of the [TypeError] for a keyword that names no parameter. *)
Definition unexpected_keyword (k : string) : Exn :=
  TypeError ("__init__() got an unexpected keyword argument '" ++ k ++ "'").

(** ** A small concrete run *)

Module Example.

Definition batch1 : Batch := mkBatch 1 (1 # 2) 1 (1 # 4) [(0%nat, 1 # 8)].
Definition batch2 : Batch := mkBatch 2 (1 # 2) 1 (1 # 4) [].
Definition batch3 : Batch := mkBatch 3 (1 # 2) 1 (1 # 4) [].

(** No collaborator raises; the clock ticks once per reading. *)
Definition env0 : Env :=
  {| clock := fun n => inject_Z (Z.of_nat n);
     fault := fun _ => None;
     post_warmup_lr := fun sc _ _ _ => init_lr sc;
     q_search := fun q => q;
     day_stamp := "2024-01-01";
     time_stamp0 := "00:00:00";
     train_set := [batch1; batch2];
     test_set := [batch3];
     model_q_params := [mkQParam 0 1 0 2 (3 # 4) 2 Converged] |}.


(** The class, the collaborators and one trainer built with the given
    [log_freq] and the default log. *)
Definition setup (log_freq : option Z) : M (TrainerClass * Trainer) :=
  let* cls := define_Trainer in
  let* m := Model_alloc in
  let* c := object_alloc in
  let* s := Scheduler_alloc
              (Scheduler_new env0 (get_optimizer "SGD") (mkScheme (1 # 10) 1) 2) in
  let* q := Q_Scheduler_alloc
              (Q_Scheduler_new (model_q_params env0) (mkQScheme 2 2 "BinarySearch") 2) in
  ret (cls, Trainer__init__ cls m s q c (train_set env0) (test_set env0)
                            None None log_freq).

Definition cls0 : TrainerClass := {| default_training_log := 0%nat |}.

Definition trainer_with (log_freq : option Z) : Trainer :=
  Trainer__init__ cls0 1%nat 3%nat 4%nat 2%nat (train_set env0) (test_set env0)
                  None None log_freq.

Definition trainer0 : Trainer := trainer_with None.

(** The store once the objects exist. *)
Definition world0 : World := Eval vm_compute in snd (setup None empty_world).

(** The store after one training epoch. *)
Definition world1 : World := Eval vm_compute in snd (train env0 trainer0 0 world0).

End Example.

(** The calls of [Trainer.register], in order. *)
Definition register_calls (self : Trainer) : list Call :=
  [CModelRegister (model self); CModelForward (model self);
   CQRegister (q_scheduler self)].

(** The document [save_config] writes for the schemes held in [w]. *)
Definition config_document (self : Trainer) (w : World) : Json :=
  JObj [("Common", Scheme_dict (scheme (get_scheduler (scheduler self) w)));
        ("Quantization",
         Q_Scheme_dict (q_scheme (get_q_scheduler (q_scheduler self) w)))].

(** What a printed line is, without the numbers it shows. *)
Inductive OutKind : Type :=
| KText (s : string)
| KLog (tag : LogTag)
| KEpoch (epoch : Z)
| KNum.

Definition out_kind (o : Output) : OutKind :=
  match o with
  | OutText s => KText s
  | OutLog tag _ => KLog tag
  | OutEpoch epoch _ => KEpoch epoch
  | OutNum _ => KNum
  end.

Definition printed (w : World) : list OutKind := map out_kind (w_stdout w).

(** [yields obs c t]: whatever happens, [c] appends to the observation
    [obs] a prefix of [t], and all of [t] when it returns. *)
Definition yields {X A} (obs : World -> list X) (c : M A) (t : list X) : Prop :=
  forall w,
    (exists k, obs (snd (c w)) = obs w ++ firstn k t) /\
    (is_ok (fst (c w)) = true -> obs (snd (c w)) = obs w ++ t).

(** The batches among [start, start + n) at which a record is due. *)
Definition due_batches (f : Z) (start n : nat) : list Z :=
  List.filter (fun i => i mod f =? 0) (map Z.of_nat (seq start n)).

(** The lines of a pass over [n] batches. *)
Definition pass_lines (f : Z) (epoch : Z) (n : nat) : list OutKind :=
  map (fun i => KLog (BatchNo i)) (due_batches f 0 n) ++ [KEpoch epoch].


(** * Reasoning about runs *)

(** ** The monad *)

Lemma bind_ok {A B} (c : M A) (k : A -> M B) w a w1 :
  c w = (Ok a, w1) -> bind c k w = k a w1.
Proof. intros H. unfold bind. now rewrite H. Qed.

Lemma bind_err {A B} (c : M A) (k : A -> M B) w e w1 :
  c w = (Err e, w1) -> bind c k w = (Err e, w1).
Proof. intros H. unfold bind. now rewrite H. Qed.

Lemma bind_inv_ok {A B} (c : M A) (k : A -> M B) w b w2 :
  bind c k w = (Ok b, w2) ->
  exists a w1, c w = (Ok a, w1) /\ k a w1 = (Ok b, w2).
Proof.
  unfold bind. destruct (c w) as [[a|e] w1]; intros H.
  - now exists a, w1.
  - discriminate.
Qed.

Lemma bind_ext {A B} (c : M A) (k k' : A -> M B) w :
  (forall a w1, k a w1 = k' a w1) -> bind c k w = bind c k' w.
Proof. intros H. unfold bind. destruct (c w) as [[a|e] w1]; [apply H | reflexivity]. Qed.


Lemma quiet_no_effect : quiet no_effect.
Proof. intros w w' [= <-]. reflexivity. Qed.

Lemma quiet_on_scheduler s f : quiet (on_scheduler s f).
Proof.
  intros w w'. unfold on_scheduler.
  destruct (f _); [intros [= <-]; reflexivity | discriminate].
Qed.

Lemma quiet_on_q_scheduler q f : quiet (on_q_scheduler q f).
Proof.
  intros w w'. unfold on_q_scheduler.
  destruct (f _); [intros [= <-]; reflexivity | discriminate].
Qed.

Lemma quiet_model_forward q d : quiet (model_forward q d).
Proof. apply quiet_on_q_scheduler. Qed.

Lemma quiet_on_model m f : quiet (on_model m f).
Proof. intros w w' [= <-]. reflexivity. Qed.

Lemma quiet_set_files f : quiet (fun w => Ok (set_files f w)).
Proof. intros w w' [= <-]. reflexivity. Qed.

Lemma quiet_check (P : World -> bool) e :
  quiet (fun w => if P w then Ok w else Err e).
Proof. intros w w'. destruct (P w); [intros [= <-]; reflexivity | discriminate]. Qed.

Create HintDb quiet.
#[global] Hint Resolve quiet_no_effect quiet_on_scheduler quiet_on_q_scheduler
  quiet_model_forward quiet_on_model quiet_set_files : quiet.

(** ** The calls a computation makes *)

Lemma emits_eq {A} (c : M A) t t' : emits c t' -> t' = t -> emits c t.
Proof. now intros H <-. Qed.

Lemma emits_ret {A} (a : A) : emits (ret a) [].
Proof. intros w. split; [exists 0%nat|]; simpl; now rewrite app_nil_r. Qed.

Lemma emits_raise {A} e t : emits (@raise A e) t.
Proof. intros w. split; [exists 0%nat; simpl; now rewrite app_nil_r | discriminate]. Qed.

Lemma emits_lift {A} (r : Res A) : emits (lift r) [].
Proof. intros w. split; [exists 0%nat|]; simpl; now rewrite app_nil_r. Qed.

Lemma emits_modify f :
  (forall w, w_trace (f w) = w_trace w) -> emits (modify f) [].
Proof.
  intros H w. split; [exists 0%nat|]; simpl; rewrite H; now rewrite app_nil_r.
Qed.

Lemma emits_gets {A} (f : World -> A) : emits (gets f) [].
Proof. intros w. split; [exists 0%nat|]; simpl; now rewrite app_nil_r. Qed.

Lemma emits_print o : emits (print o) [].
Proof. apply emits_modify. reflexivity. Qed.

Lemma emits_on_log l f : emits (on_log l f) [].
Proof. apply emits_modify. reflexivity. Qed.

Lemma emits_time env : emits (time_time env) [].
Proof. intros w. split; [exists 0%nat|]; simpl; now rewrite app_nil_r. Qed.

Lemma emits_call env c eff : quiet eff -> emits (call env c eff) [c].
Proof.
  intros Hq w. unfold call.
  destruct (fault env _).
  - split; [exists 1%nat; reflexivity | discriminate].
  - destruct (eff _) as [w2|e] eqn:E.
    + apply Hq in E. simpl in *. rewrite E. split; [exists 1%nat|]; reflexivity.
    + split; [exists 1%nat; reflexivity | discriminate].
Qed.

Lemma emits_bind {A B} (c : M A) (k : A -> M B) t1 t2 :
  emits c t1 -> (forall a, emits (k a) t2) -> emits (bind c k) (t1 ++ t2).
Proof.
  intros Hc Hk w. unfold bind.
  destruct (Hc w) as [[n Hn] Hok].
  destruct (c w) as [[a|e] w1]; simpl in *.
  - specialize (Hok eq_refl).
    destruct (Hk a w1) as [[m Hm] Hok2].
    split.
    + exists (length t1 + m)%nat.
      rewrite Hm, Hok, firstn_app_2, app_assoc. reflexivity.
    + intros H. rewrite (Hok2 H), Hok, app_assoc. reflexivity.
  - split; [|discriminate].
    exists (Nat.min n (length t1)).
    rewrite Hn. f_equal.
    rewrite firstn_app.
    replace (Nat.min n (length t1) - length t1)%nat with 0%nat by lia.
    simpl. rewrite app_nil_r.
    destruct (Nat.le_ge_cases n (length t1)).
    + now rewrite Nat.min_l.
    + rewrite Nat.min_r by assumption.
      now rewrite !firstn_all2 by lia.
Qed.

Lemma emits_when (b : bool) c t :
  emits c t -> emits (when b c) (if b then t else []).
Proof. destruct b; [trivial | intros _; apply emits_ret]. Qed.

Lemma emits_when_nil (b : bool) c : emits c [] -> emits (when b c) [].
Proof. destruct b; [trivial | intros _; apply emits_ret]. Qed.

Lemma emits_py_mod a b : emits (py_mod_is_zero a b) [].
Proof.
  unfold py_mod_is_zero. destruct (b =? 0); [apply emits_raise | apply emits_ret].
Qed.

Lemma emits_log l tag : emits (TrainingLog_log l tag) [].
Proof.
  unfold TrainingLog_log.
  apply (emits_bind _ _ [] []); [apply emits_gets | intros; apply emits_print].
Qed.

Ltac emits_step :=
  first
    [ apply emits_ret | apply emits_lift | apply emits_print | apply emits_on_log
    | apply emits_time | apply emits_gets | apply emits_py_mod | apply emits_log
    | apply emits_call; solve [auto with quiet]
    | apply emits_when_nil; apply emits_log
    | eapply emits_when
    | eapply emits_bind; [| intros ?] ].

Ltac emits_auto := eapply emits_eq; [repeat emits_step | simpl; try reflexivity].

(** ** The calls of one pass *)

Section PassCalls.
Variable env : Env.

Lemma forward_batch_emits self train batch b ts :
  emits (forward_batch env self train batch b ts) (body_calls self train batch).
Proof.
  unfold forward_batch, body_calls. emits_auto.
Qed.

Lemma forward_loop_emits self train dl : forall batch ts,
  emits (forward_loop env self train dl batch ts)
        (loop_calls self train (length dl) batch).
Proof.
  induction dl as [|b rest IH]; intros batch ts; simpl.
  - apply emits_ret.
  - eapply emits_eq.
    + apply emits_bind; [apply emits_call; auto with quiet | intros _].
      apply emits_bind; [apply forward_batch_emits | intros ts'].
      apply IH.
    + reflexivity.
Qed.

Lemma forward_begin_emits self train :
  emits (forward_begin env self train) (begin_calls self train).
Proof.
  unfold forward_begin, begin_calls. destruct train; emits_auto.
Qed.

Lemma forward_end_emits self epoch train :
  emits (forward_end env self epoch train) (end_calls self train).
Proof.
  unfold forward_end, end_calls. emits_auto.
  destruct train; reflexivity.
Qed.

Lemma forward_emits self epoch dl train :
  emits (forward env self epoch dl train) (pass_calls self train (length dl)).
Proof.
  unfold forward, pass_calls.
  apply emits_bind; [apply forward_begin_emits | intros _].
  apply (emits_bind _ _ []); [apply emits_time | intros ts].
  apply emits_bind; [apply forward_loop_emits | intros _].
  apply forward_end_emits.
Qed.

End PassCalls.

(** ** Counting calls *)

Lemma count_calls_app p t1 t2 :
  count_calls p (t1 ++ t2) = (count_calls p t1 + count_calls p t2)%nat.
Proof. induction t1 as [|c t1 IH]; simpl; [reflexivity | rewrite IH; lia]. Qed.

Lemma count_calls_firstn p k t :
  (count_calls p (firstn k t) <= count_calls p t)%nat.
Proof.
  revert k. induction t as [|c t IH]; intros [|k]; simpl; try lia.
  specialize (IH k). lia.
Qed.

Lemma count_calls_firstn_0 p k t :
  count_calls p t = 0%nat -> count_calls p (firstn k t) = 0%nat.
Proof. intros H. pose proof (count_calls_firstn p k t). lia. Qed.

Lemma count_loop_calls p self train c :
  (forall batch, count_calls p (batch_calls self train batch) = c) ->
  forall n batch, count_calls p (loop_calls self train n batch) = (n * c)%nat.
Proof.
  intros Hc. induction n as [|n IH]; intros batch; cbn [loop_calls].
  - reflexivity.
  - rewrite count_calls_app, Hc, IH. lia.
Qed.

Lemma Example_setup :
  Example.setup None empty_world = (Ok (Example.cls0, Example.trainer0), Example.world0).
Proof. vm_compute. reflexivity. Qed.

Lemma Example_train :
  forward Example.env0 Example.trainer0 0 (train_loader Example.trainer0) true
          Example.world0 = (Ok tt, Example.world1).
Proof. vm_compute. reflexivity. Qed.

Lemma count_pass_calls p self train n c :
  (forall batch, count_calls p (batch_calls self train batch) = c) ->
  count_calls p (pass_calls self train n)
  = (count_calls p (begin_calls self train) + n * c
     + count_calls p (end_calls self train))%nat.
Proof.
  intros Hc. unfold pass_calls.
  rewrite !count_calls_app, (count_loop_calls p self train c Hc). lia.
Qed.

Lemma forward_ok_trace env self epoch dl train w w' :
  forward env self epoch dl train w = (Ok tt, w') ->
  w_trace w' = w_trace w ++ pass_calls self train (length dl).
Proof.
  intros H. destruct (forward_emits env self epoch dl train w) as [_ Hok].
  rewrite H in Hok. now apply Hok.
Qed.

Lemma forward_any_trace env self epoch dl train w :
  exists k, w_trace (snd (forward env self epoch dl train w))
            = w_trace w ++ firstn k (pass_calls self train (length dl)).
Proof. apply (forward_emits env self epoch dl train w). Qed.






(** * The properties *)

(** ** Epoch boundary *)

(** C1.  A training pass that completes has made, after the calls of its
    last batch, exactly the two calls [scheduler.update_epoch()] and
    [q_scheduler.step()], in that order, and neither of them before; an
    evaluation pass makes neither call, however it ends. *)
Theorem epoch_end_calls env self epoch dl w :
  (forall w', forward env self epoch dl true w = (Ok tt, w') ->
     let body := begin_calls self true ++ loop_calls self true (length dl) 0 in
     w_trace w' = w_trace w ++ body
                  ++ [CUpdateEpoch (scheduler self); CQStep (q_scheduler self)]
     /\ count_calls is_update_epoch body = 0%nat
     /\ count_calls is_q_step body = 0%nat)
  /\ (exists t,
        w_trace (snd (forward env self epoch dl false w)) = w_trace w ++ t
        /\ count_calls is_update_epoch t = 0%nat
        /\ count_calls is_q_step t = 0%nat).
Proof.
  split.
  - intros w' H. apply forward_ok_trace in H. cbv zeta.
    split; [|split].
    + rewrite H. unfold pass_calls, end_calls. now rewrite <- !app_assoc.
    + rewrite count_calls_app, (count_loop_calls _ self true 0%nat);
        [unfold begin_calls; simpl; lia | reflexivity].
    + rewrite count_calls_app, (count_loop_calls _ self true 0%nat);
        [unfold begin_calls; simpl; lia | reflexivity].
  - destruct (forward_any_trace env self epoch dl false w) as [k Hk].
    exists (firstn k (pass_calls self false (length dl))).
    split; [exact Hk|].
    split; apply count_calls_firstn_0;
      rewrite (count_pass_calls _ self false _ 0%nat);
      unfold begin_calls, end_calls; simpl; try lia; reflexivity.
Qed.

Lemma epoch_end_calls_witness :
  forward Example.env0 Example.trainer0 0 (train_loader Example.trainer0) true
          Example.world0 = (Ok tt, Example.world1)
  /\ w_trace Example.world1
     = w_trace Example.world0
       ++ (begin_calls Example.trainer0 true
           ++ loop_calls Example.trainer0 true
                (length (train_loader Example.trainer0)) 0)
       ++ [CUpdateEpoch (scheduler Example.trainer0);
           CQStep (q_scheduler Example.trainer0)].
Proof.
  split; [exact Example_train|].
  exact (proj1 (proj1 (epoch_end_calls Example.env0 Example.trainer0 0
                         (train_loader Example.trainer0) Example.world0)
                      Example.world1 Example_train)).
Defined.

(** ** The learning-rate step *)



(** ** Sensitivity reset *)





(** ** Evaluation passes *)

Section Keeps.
Variable R : World -> World -> Prop.
Hypothesis R_refl : forall w, R w w.
Hypothesis R_trans : forall w1 w2 w3, R w1 w2 -> R w2 w3 -> R w1 w3.

Lemma keeps_ret {A} (a : A) : keeps R (ret a).
Proof. intros w. apply R_refl. Qed.

Lemma keeps_raise {A} e : keeps R (@raise A e).
Proof. intros w. apply R_refl. Qed.

Lemma keeps_gets {A} (f : World -> A) : keeps R (gets f).
Proof. intros w. apply R_refl. Qed.

Lemma keeps_modify f : (forall w, R w (f w)) -> keeps R (modify f).
Proof. intros H w. apply H. Qed.

Lemma keeps_bind {A B} (c : M A) (k : A -> M B) :
  keeps R c -> (forall a, keeps R (k a)) -> keeps R (bind c k).
Proof.
  intros Hc Hk w. unfold bind. specialize (Hc w).
  destruct (c w) as [[a|e] w1]; simpl in *; [|exact Hc].
  eapply R_trans; [exact Hc | apply Hk].
Qed.

Lemma keeps_when (b : bool) c : keeps R c -> keeps R (when b c).
Proof. destruct b; [trivial | intros _; apply keeps_ret]. Qed.

Lemma keeps_call env c eff :
  (forall w, R w (set_trace (fun t => t ++ [c]) w)) ->
  (forall w w', eff w = Ok w' -> R w w') ->
  keeps R (call env c eff).
Proof.
  intros Ht He w. unfold call.
  destruct (fault env _); [apply Ht|].
  destruct (eff _) as [w2|e] eqn:E; simpl; [|apply Ht].
  eapply R_trans; [apply Ht | apply (He _ _ E)].
Qed.

Lemma keeps_py_mod a b : keeps R (py_mod_is_zero a b).
Proof.
  unfold py_mod_is_zero. destruct (b =? 0); [apply keeps_raise | apply keeps_ret].
Qed.

End Keeps.

Lemma same_schedules_refl w : same_schedules w w.
Proof. split; reflexivity. Qed.

Lemma same_schedules_trans w1 w2 w3 :
  same_schedules w1 w2 -> same_schedules w2 w3 -> same_schedules w1 w3.
Proof.
  intros [H1 H2] [H3 H4]. split; intros x.
  - now rewrite H3, H1.
  - now rewrite H4, H2.
Qed.

Lemma same_schedules_of_eq w w' :
  w_schedulers w' = w_schedulers w -> w_q_schedulers w' = w_q_schedulers w ->
  same_schedules w w'.
Proof.
  intros H1 H2. split; intros x; unfold get_scheduler, get_q_scheduler;
    now rewrite ?H1, ?H2.
Qed.

Lemma zero_grad_view s s' :
  Scheduler_zero_grad s = Ok s' -> scheduler_view s' = scheduler_view s.
Proof.
  unfold Scheduler_zero_grad. destruct (optimizer s) as [o|] eqn:E; [|discriminate].
  intros [= <-]. unfold scheduler_view, with_optimizer. simpl. rewrite E. reflexivity.
Qed.

Lemma accumulate_view q d :
  q_scheduler_view (Q_Scheduler_accumulate q d) = q_scheduler_view q.
Proof.
  unfold q_scheduler_view, Q_Scheduler_accumulate, with_q_params. simpl.
  rewrite map_map. f_equal. f_equal. apply map_ext. intros p.
  unfold accumulate_param. destruct (Nat.eqb _ _); reflexivity.
Qed.

Lemma accumulate_all_view ds : forall q,
  q_scheduler_view (fold_left Q_Scheduler_accumulate ds q) = q_scheduler_view q.
Proof.
  induction ds as [|d ds IH]; intros q; simpl; [reflexivity|].
  now rewrite IH, accumulate_view.
Qed.

Lemma on_scheduler_same s f w w' :
  (forall x x', f x = Ok x' -> scheduler_view x' = scheduler_view x) ->
  on_scheduler s f w = Ok w' -> same_schedules w w'.
Proof.
  intros Hf. unfold on_scheduler.
  destruct (f _) as [s'|] eqn:E; [|discriminate]. intros [= <-].
  apply Hf in E. split; [|reflexivity].
  intros l. unfold get_scheduler in *. simpl.
  rewrite lookup_total_alter. destruct (decide (s = l)) as [->|]; [|reflexivity].
  unfold lookup_total, map_lookup_total in *.
  destruct (w_schedulers w !! l); simpl in *; [exact E | reflexivity].
Qed.

Lemma on_q_scheduler_same q f w w' :
  (forall x x', f x = Ok x' -> q_scheduler_view x' = q_scheduler_view x) ->
  on_q_scheduler q f w = Ok w' -> same_schedules w w'.
Proof.
  intros Hf. unfold on_q_scheduler.
  destruct (f _) as [q'|] eqn:E; [|discriminate]. intros [= <-].
  apply Hf in E. split; [reflexivity|].
  intros l. unfold get_q_scheduler in *. simpl.
  rewrite lookup_total_alter. destruct (decide (q = l)) as [->|]; [|reflexivity].
  unfold lookup_total, map_lookup_total in *.
  destruct (w_q_schedulers w !! l); simpl in *; [exact E | reflexivity].
Qed.

Ltac same_step :=
  first
    [ apply keeps_ret; exact same_schedules_refl
    | apply keeps_gets; exact same_schedules_refl
    | apply keeps_py_mod; exact same_schedules_refl
    | apply keeps_modify; intros ?; apply same_schedules_of_eq; reflexivity
    | apply keeps_when; [exact same_schedules_refl|]
    | apply keeps_bind; [exact same_schedules_trans | | intros ?] ].

Lemma keeps_same_call env c eff :
  (forall w w', eff w = Ok w' -> same_schedules w w') ->
  keeps same_schedules (call env c eff).
Proof.
  intros He. apply keeps_call.
  - exact same_schedules_trans.
  - intros w. apply same_schedules_of_eq; reflexivity.
  - exact He.
Qed.

Lemma keeps_same_quiet_call env c :
  keeps same_schedules (call env c no_effect).
Proof. apply keeps_same_call. intros w w' [= <-]. apply same_schedules_refl. Qed.

Lemma keeps_same_time env : keeps same_schedules (time_time env).
Proof. intros w. apply same_schedules_of_eq; reflexivity. Qed.

Lemma keeps_same_model_forward env m q ds :
  keeps same_schedules (call env (CModelForward m) (model_forward q ds)).
Proof.
  apply keeps_same_call. intros w w'. apply on_q_scheduler_same.
  intros x x' [= <-]. apply accumulate_all_view.
Qed.

Lemma keeps_same_zero_grad env s :
  keeps same_schedules (call env (CZeroGrad s) (on_scheduler s Scheduler_zero_grad)).
Proof.
  apply keeps_same_call. intros w w'. apply on_scheduler_same.
  exact zero_grad_view.
Qed.

Lemma forward_batch_eval_same env self batch b ts :
  keeps same_schedules (forward_batch env self false batch b ts).
Proof.
  unfold forward_batch, on_log, TrainingLog_log, print, when.
  repeat first
    [ apply keeps_same_time | apply keeps_same_zero_grad
    | apply keeps_same_model_forward | apply keeps_same_quiet_call
    | same_step
    | match goal with |- keeps _ (if ?b then _ else _) => destruct b end ].
Qed.

Lemma forward_loop_eval_same env self dl : forall batch ts,
  keeps same_schedules (forward_loop env self false dl batch ts).
Proof.
  induction dl as [|b rest IH]; intros batch ts; simpl.
  - apply keeps_ret. exact same_schedules_refl.
  - apply keeps_bind; [exact same_schedules_trans
                      | apply keeps_same_quiet_call | intros _].
    apply keeps_bind; [exact same_schedules_trans
                      | apply forward_batch_eval_same | intros ts'].
    apply IH.
Qed.

Lemma forward_eval_same env self epoch dl :
  keeps same_schedules (forward env self epoch dl false).
Proof.
  unfold forward, forward_begin, forward_end, on_log, print, when.
  apply keeps_bind; [exact same_schedules_trans | | intros _].
  { apply keeps_bind; [exact same_schedules_trans | | intros _].
    - apply keeps_same_call. intros w w' [= <-].
      apply same_schedules_of_eq; reflexivity.
    - same_step. }
  apply keeps_bind; [exact same_schedules_trans | apply keeps_same_time | intros ts].
  apply keeps_bind; [exact same_schedules_trans
                    | apply forward_loop_eval_same | intros _].
  repeat same_step.
Qed.

(** C2, as the code has it.  An evaluation pass, however it ends, leaves
    every scheduler's scheme, counters and [lr], the learning rate applied
    to its optimizer, and every quantization parameter's [K], bracket,
    target and [state] as they were; it never calls [loss.backward()],
    [scheduler.step()], [scheduler.update_epoch()],
    [q_scheduler.zero_sensitivity()] or [q_scheduler.step()].  It does call
    [scheduler.zero_grad()], once per batch when it completes. *)
Theorem test_keeps_schedules env self epoch w :
  same_schedules w (snd (test env self epoch w))
  /\ (exists t,
        w_trace (snd (test env self epoch w)) = w_trace w ++ t
        /\ count_calls is_backward t = 0%nat
        /\ count_calls is_sched_step t = 0%nat
        /\ count_calls is_update_epoch t = 0%nat
        /\ count_calls is_zero_sensitivity t = 0%nat
        /\ count_calls is_q_step t = 0%nat
        /\ (is_ok (fst (test env self epoch w)) = true ->
            count_calls is_zero_grad t = length (test_loader self))).
Proof.
  split; [apply forward_eval_same|].
  unfold test.
  destruct (forward_emits env self epoch (test_loader self) false w) as [[k Hk] Hok].
  exists (firstn k (pass_calls self false (length (test_loader self)))).
  split; [exact Hk|].
  repeat split;
    try (apply count_calls_firstn_0;
         rewrite (count_pass_calls _ self false _ 0%nat); [|reflexivity];
         unfold begin_calls, end_calls; simpl; lia).
  intros H. specialize (Hok H). rewrite Hok in Hk.
  apply app_inv_head in Hk. rewrite <- Hk.
  rewrite (count_pass_calls _ self false _ 1%nat); [|reflexivity].
  unfold begin_calls, end_calls. simpl. lia.
Qed.

Lemma test_keeps_schedules_witness :
  is_ok (fst (test Example.env0 Example.trainer0 0 Example.world1)) = true
  /\ exists t,
       w_trace (snd (test Example.env0 Example.trainer0 0 Example.world1))
       = w_trace Example.world1 ++ t
       /\ count_calls is_zero_grad t = length (test_loader Example.trainer0).
Proof.
  assert (H : is_ok (fst (test Example.env0 Example.trainer0 0 Example.world1)) = true)
    by (vm_compute; reflexivity).
  split; [exact H|].
  destruct (proj2 (test_keeps_schedules Example.env0 Example.trainer0 0 Example.world1))
    as (t & Ht & _ & _ & _ & _ & _ & Hz).
  exists t. split; [exact Ht | exact (Hz H)].
Defined.

(** C2, as stated, fails: after a training epoch the optimizer holds the
    last batch's gradient; the first batch of [test] calls
    [scheduler.zero_grad()], which clears it. *)
Lemma test_clears_gradients :
  grad <$> optimizer (get_scheduler 3%nat Example.world1) = Some (1 # 4)%Q
  /\ fst (test Example.env0 Example.trainer0 0 Example.world1) = Ok tt
  /\ grad <$> optimizer (get_scheduler 3%nat
        (snd (test Example.env0 Example.trainer0 0 Example.world1))) = Some 0%Q
  /\ w_schedulers (snd (test Example.env0 Example.trainer0 0 Example.world1))
     <> w_schedulers Example.world1.
Proof.
  assert (H1 : grad <$> optimizer (get_scheduler 3%nat Example.world1) = Some (1 # 4)%Q)
    by (vm_compute; reflexivity).
  assert (H2 : grad <$> optimizer (get_scheduler 3%nat
             (snd (test Example.env0 Example.trainer0 0 Example.world1))) = Some 0%Q)
    by (vm_compute; reflexivity).
  split; [exact H1 | split; [vm_compute; reflexivity | split; [exact H2|]]].
  intros H. unfold get_scheduler in H1, H2. rewrite H, H1 in H2. discriminate H2.
Qed.

(** ** Configuration files *)

(** C8.  [load_config] opens the file, parses it and prints a message; for
    every trainer, path and store, and however the call ends, every
    scheduler, quantization scheduler, scheme, log, model and file is
    afterwards what it was, and the trainer's own fields are not assigned
    (the method returns nothing).  It returns when the file holds a JSON
    document and the file system does not fail. *)
Theorem load_config_changes_nothing env self path w :
  same_store w (snd (load_config env self path w))
  /\ w_trace (snd (load_config env self path w)) = w_trace w ++ [COpen path]
  /\ (forall doc,
        fault env (length (w_trace w)) = None ->
        w_files w !! path = Some (FJson doc) ->
        load_config env self path w
        = (Ok tt,
           set_stdout
             (fun out => out ++ [OutText ("Successful Loading Trainer Config from "
                                          ++ path)%string])
             (set_trace (fun t => t ++ [COpen path]) w)))
  /\ (is_ok (fst (load_config env self path w)) = false ->
      w_stdout (snd (load_config env self path w)) = w_stdout w).
Proof.
  unfold load_config, bind, call, gets, print, modify, raise, same_store.
  destruct (fault env (length (w_trace w))) as [e|]; simpl.
  - repeat split; try reflexivity. intros doc H. discriminate H.
  - destruct (w_files w !! path) as [[doc|txt]|] eqn:E; simpl; rewrite ?E; simpl;
      repeat split; try reflexivity; try discriminate.
Qed.

Lemma load_config_changes_nothing_witness :
  let w := set_files (insert "cfg.json" (FJson (JObj []))) Example.world0 in
  fault Example.env0 (length (w_trace w)) = None
  /\ w_files w !! "cfg.json" = Some (FJson (JObj []))
  /\ fst (load_config Example.env0 Example.trainer0 "cfg.json" w) = Ok tt.
Proof.
  cbv zeta.
  assert (Hf : w_files (set_files (insert "cfg.json" (FJson (JObj []))) Example.world0)
               !! "cfg.json" = Some (FJson (JObj [])))
    by (vm_compute; reflexivity).
  split; [reflexivity | split; [exact Hf|]].
  rewrite (proj1 (proj2 (proj2
    (load_config_changes_nothing Example.env0 Example.trainer0 "cfg.json"
       (set_files (insert "cfg.json" (FJson (JObj []))) Example.world0))))
    (JObj []) eq_refl Hf).
  reflexivity.
Defined.

(** ** Exceptions in the batch loop *)




(** ** The default training log *)

Lemma define_Trainer_allocates w :
  define_Trainer w
  = (Ok {| default_training_log := w_next w |},
     set_next S (set_logs (insert (w_next w) TrainingLog_new) w)).
Proof. reflexivity. Qed.

(** C10.  The class statement builds one [TrainingLog] and keeps it as the
    default of [__init__]; constructing a trainer builds none.  So two
    trainers made without a [training_log] argument hold the same log
    object, whatever their other arguments: a reset or a meter update made
    through the first is what the second reads, and a whole pass run by the
    first leaves in the second's log exactly what it leaves in its own. *)
Theorem default_training_log_shared
    cls m1 s1 q1 c1 tl1 sl1 d1 f1 m2 s2 q2 c2 tl2 sl2 d2 f2 :
  let t1 := Trainer__init__ cls m1 s1 q1 c1 tl1 sl1 d1 None f1 in
  let t2 := Trainer__init__ cls m2 s2 q2 c2 tl2 sl2 d2 None f2 in
  training_log t1 = default_training_log cls
  /\ training_log t2 = training_log t1
  /\ (forall w0, default_training_log (match fst (define_Trainer w0) with
                                       | Ok c => c
                                       | Err _ => cls
                                       end) = w_next w0
                 /\ w_logs (snd (define_Trainer w0)) !! w_next w0 = Some TrainingLog_new)
  /\ (forall f w l,
        w_logs w !! training_log t1 = Some l ->
        get_log (training_log t2) (snd (on_log (training_log t1) f w)) = f l)
  /\ (forall env epoch dl train w,
        get_log (training_log t2) (snd (forward env t1 epoch dl train w))
        = get_log (training_log t1) (snd (forward env t1 epoch dl train w))).
Proof.
  cbv zeta. simpl. repeat split.
  - apply lookup_insert_eq.
  - intros f w l H. unfold get_log. simpl.
    rewrite lookup_total_alter_eq, H. reflexivity.
Qed.

Lemma default_training_log_shared_witness :
  w_logs Example.world0 !! training_log (Example.trainer_with None)
  = Some TrainingLog_new
  /\ get_log (training_log (Example.trainer_with (Some 3)))
       (snd (on_log (training_log (Example.trainer_with None))
                    (upd_losses (AverageMeter_update 1)) Example.world0))
     = upd_losses (AverageMeter_update 1) TrainingLog_new.
Proof.
  assert (H : w_logs Example.world0 !! training_log (Example.trainer_with None)
              = Some TrainingLog_new) by (vm_compute; reflexivity).
  split; [exact H|].
  exact (proj1 (proj2 (proj2 (proj2
    (default_training_log_shared Example.cls0
       1%nat 3%nat 4%nat 2%nat (train_set Example.env0) (test_set Example.env0) None None
       1%nat 3%nat 4%nat 2%nat (train_set Example.env0) (test_set Example.env0) None (Some 3)))))
    (upd_losses (AverageMeter_update 1)) Example.world0 TrainingLog_new H).
Defined.

(** ** Computations that keep an invariant *)

Section Hoare.
Variable I : World -> Prop.
Variable E : Exn -> Prop.

Lemma hoare_ret {A} (a : A) : hoare I (ret a) E.
Proof. intros w H. exact H. Qed.

Lemma hoare_raise {A} e : E e -> hoare I (@raise A e) E.
Proof. intros He w _. exact He. Qed.

Lemma hoare_gets {A} (f : World -> A) : hoare I (gets f) E.
Proof. intros w H. exact H. Qed.

Lemma hoare_modify f : (forall w, I w -> I (f w)) -> hoare I (modify f) E.
Proof. intros Hf w H. apply Hf, H. Qed.

Lemma hoare_bind {A B} (c : M A) (k : A -> M B) :
  hoare I c E -> (forall a, hoare I (k a) E) -> hoare I (bind c k) E.
Proof.
  intros Hc Hk w H. unfold bind. specialize (Hc w H).
  destruct (c w) as [[a|e] w1]; [apply Hk, Hc | exact Hc].
Qed.

Lemma hoare_when (b : bool) c : hoare I c E -> hoare I (when b c) E.
Proof. destruct b; [trivial | intros _; apply hoare_ret]. Qed.

Lemma hoare_call env c eff :
  no_fault env ->
  (forall w, I w -> exists w', eff (set_trace (fun t => t ++ [c]) w) = Ok w' /\ I w') ->
  hoare I (call env c eff) E.
Proof.
  intros Hf He w H. unfold call. rewrite Hf.
  destruct (He w H) as (w' & -> & H'). exact H'.
Qed.

End Hoare.

Lemma never_returns_raise {A} e : never_returns (@raise A e).
Proof. intros w. reflexivity. Qed.

Lemma never_returns_bind_l {A B} (c : M A) (k : A -> M B) :
  never_returns c -> never_returns (bind c k).
Proof.
  intros Hc w. unfold bind. specialize (Hc w).
  destruct (c w) as [[a|e] w1]; [discriminate Hc | reflexivity].
Qed.

Lemma never_returns_bind_r {A B} (c : M A) (k : A -> M B) :
  (forall a, never_returns (k a)) -> never_returns (bind c k).
Proof.
  intros Hk w. unfold bind.
  destruct (c w) as [[a|e] w1]; [apply Hk | reflexivity].
Qed.

(** ** The trainer's scheduler keeps its optimizer *)

Lemma has_optimizer_of_eq self w w' :
  w_schedulers w' = w_schedulers w -> has_optimizer self w -> has_optimizer self w'.
Proof. intros H. unfold has_optimizer. now rewrite H. Qed.

Lemma on_scheduler_has_optimizer self f w :
  (forall s o, optimizer s = Some o ->
     exists s' o', f s = Ok s' /\ optimizer s' = Some o') ->
  has_optimizer self w ->
  exists w', on_scheduler (scheduler self) f w = Ok w' /\ has_optimizer self w'.
Proof.
  intros Hf (s & o & Hs & Ho).
  unfold on_scheduler, get_scheduler.
  rewrite (lookup_total_correct _ _ _ Hs).
  destruct (Hf s o Ho) as (s' & o' & -> & Ho').
  eexists. split; [reflexivity|].
  exists s', o'. split; [|exact Ho'].
  simpl. rewrite lookup_alter_eq, Hs. reflexivity.
Qed.

Lemma on_q_scheduler_has_optimizer self q f w :
  (forall x, exists x', f x = Ok x') ->
  has_optimizer self w ->
  exists w', on_q_scheduler q f w = Ok w' /\ has_optimizer self w'.
Proof.
  intros Hf H. unfold on_q_scheduler.
  destruct (Hf (get_q_scheduler q w)) as (x' & ->).
  eexists. split; [reflexivity|]. exact H.
Qed.

(** With an optimizer in place and no collaborator failing, a batch can
    only raise at the [batch % log_freq] test. *)
Lemma forward_batch_hoare env self train batch b ts :
  no_fault env ->
  hoare (has_optimizer self) (forward_batch env self train batch b ts)
        (fun e => e = ZeroDivisionError /\ log_freq self = 0).
Proof.
  intros Hnf. unfold forward_batch, on_log, TrainingLog_log, print.
  repeat first
    [ apply hoare_ret
    | apply hoare_gets
    | apply hoare_when
    | apply hoare_modify; intros w; apply has_optimizer_of_eq; reflexivity
    | apply hoare_bind; [| intros ?] ].
  all: try (intros w H; exact H).
  all: try (apply hoare_call; [exact Hnf | intros w H]).
  all: try (eexists; split; [reflexivity|];
            eapply has_optimizer_of_eq; [|exact H]; reflexivity).
  - apply on_scheduler_has_optimizer.
    + intros s o Ho. unfold Scheduler_zero_grad. rewrite Ho.
      do 2 eexists. split; [reflexivity|]. simpl. rewrite Ho. reflexivity.
    + eapply has_optimizer_of_eq; [|exact H]; reflexivity.
  - apply on_scheduler_has_optimizer.
    + intros s o Ho. do 2 eexists. split; [reflexivity|].
      simpl. rewrite Ho. reflexivity.
    + eapply has_optimizer_of_eq; [|exact H]; reflexivity.
  - apply on_scheduler_has_optimizer.
    + intros s o Ho. unfold Scheduler_step. rewrite Ho.
      do 2 eexists. split; reflexivity.
    + eapply has_optimizer_of_eq; [|exact H]; reflexivity.
  - unfold py_mod_is_zero. destruct (log_freq self =? 0) eqn:Ez.
    + apply hoare_raise. split; [reflexivity | lia].
    + apply hoare_ret.
Qed.

Lemma forward_loop_hoare env self train dl : forall batch ts,
  no_fault env ->
  hoare (has_optimizer self) (forward_loop env self train dl batch ts)
        (fun e => e = ZeroDivisionError /\ log_freq self = 0).
Proof.
  induction dl as [|b rest IH]; intros batch ts Hnf; simpl.
  - apply hoare_ret.
  - apply hoare_bind; [|intros _].
    + apply hoare_call; [exact Hnf | intros w H].
      eexists. split; [reflexivity|].
      eapply has_optimizer_of_eq; [|exact H]; reflexivity.
    + apply hoare_bind; [apply forward_batch_hoare, Hnf | intros ts'].
      apply IH, Hnf.
Qed.

Lemma forward_hoare env self epoch dl train :
  no_fault env ->
  hoare (has_optimizer self) (forward env self epoch dl train)
        (fun e => e = ZeroDivisionError /\ log_freq self = 0).
Proof.
  intros Hnf. unfold forward, forward_begin, forward_end, on_log, print.
  apply hoare_bind; [|intros _].
  { apply hoare_bind; [|intros _].
    - destruct train.
      + apply hoare_bind; [|intros _]; (apply hoare_call; [exact Hnf | intros w H]).
        * eexists. split; [reflexivity|].
          eapply has_optimizer_of_eq; [|exact H]; reflexivity.
        * apply on_q_scheduler_has_optimizer; [intros x; eexists; reflexivity|].
          eapply has_optimizer_of_eq; [|exact H]; reflexivity.
      + apply hoare_call; [exact Hnf | intros w H].
        eexists. split; [reflexivity|].
        eapply has_optimizer_of_eq; [|exact H]; reflexivity.
    - apply hoare_modify. intros w. apply has_optimizer_of_eq. reflexivity. }
  apply hoare_bind; [intros w H; exact H | intros ts].
  apply hoare_bind; [apply forward_loop_hoare, Hnf | intros _].
  apply hoare_bind; [|intros r].
  - apply hoare_when.
    apply hoare_bind; [|intros _]; (apply hoare_call; [exact Hnf | intros w H]).
    + apply on_scheduler_has_optimizer.
      * intros s o Ho. do 2 eexists. split; [reflexivity | exact Ho].
      * eapply has_optimizer_of_eq; [|exact H]; reflexivity.
    + apply on_q_scheduler_has_optimizer; [intros x; eexists; reflexivity|].
      eapply has_optimizer_of_eq; [|exact H]; reflexivity.
  - apply hoare_bind; [apply hoare_gets | intros r'].
    apply hoare_modify. intros w. apply has_optimizer_of_eq. reflexivity.
Qed.

Lemma forward_batch_never_returns env self train batch b ts :
  log_freq self = 0 -> never_returns (forward_batch env self train batch b ts).
Proof.
  intros H0. unfold forward_batch. rewrite H0.
  repeat first
    [ apply never_returns_bind_l; apply never_returns_raise
    | apply never_returns_bind_r; intros ? ].
Qed.

Lemma forward_never_returns env self epoch b dl train :
  log_freq self = 0 -> never_returns (forward env self epoch (b :: dl) train).
Proof.
  intros H0. unfold forward.
  apply never_returns_bind_r; intros _.
  apply never_returns_bind_r; intros ts.
  apply never_returns_bind_l. simpl.
  apply never_returns_bind_r; intros _.
  apply never_returns_bind_l.
  now apply forward_batch_never_returns.
Qed.

Lemma mod_opp_is_zero a b : (a mod - b =? 0) = (a mod b =? 0).
Proof.
  destruct (Z.eq_dec b 0) as [->|Hb]; [reflexivity|].
  apply eq_true_iff_eq. rewrite !Z.eqb_eq.
  rewrite !Z.mod_divide by lia. split; intros H.
  - exact (proj1 (Z.divide_opp_l b a) H).
  - exact (proj2 (Z.divide_opp_l b a) H).
Qed.

Lemma py_mod_is_zero_opp a b : py_mod_is_zero a (- b) = py_mod_is_zero a b.
Proof.
  unfold py_mod_is_zero. rewrite mod_opp_is_zero.
  destruct (Z.eqb_spec b 0) as [->|Hb]; [reflexivity|].
  destruct (Z.eqb_spec (- b) 0); [lia | reflexivity].
Qed.

Lemma forward_batch_opp env self train batch b ts :
  forward_batch env (with_log_freq (- log_freq self) self) train batch b ts
  = forward_batch env self train batch b ts.
Proof.
  unfold forward_batch. simpl. rewrite py_mod_is_zero_opp. reflexivity.
Qed.

Lemma forward_loop_opp env self train dl : forall batch ts w,
  forward_loop env (with_log_freq (- log_freq self) self) train dl batch ts w
  = forward_loop env self train dl batch ts w.
Proof.
  induction dl as [|b rest IH]; intros batch ts w; simpl; [reflexivity|].
  apply bind_ext. intros _ w1. rewrite forward_batch_opp.
  apply bind_ext. intros ts' w2. apply IH.
Qed.

Lemma forward_opp env self epoch dl train w :
  forward env (with_log_freq (- log_freq self) self) epoch dl train w
  = forward env self epoch dl train w.
Proof.
  unfold forward. apply bind_ext. intros _ w1.
  apply bind_ext. intros ts w2.
  unfold bind. rewrite forward_loop_opp. reflexivity.
Qed.

(** ** The logging frequency *)

(** C4, as the code has it.  [Trainer.__init__] keeps whatever
    [log_freq] it is given.  With [log_freq = 0] no pass over a non-empty
    loader returns, and when no collaborator fails the exception is the
    [ZeroDivisionError] of [batch % log_freq]; with any other value, a
    negative one included, that test raises nothing, and the pass is the one
    [- log_freq] gives. *)
Theorem log_freq_unchecked env self epoch train :
  (forall cls m s q c tl sl d l f,
     log_freq (Trainer__init__ cls m s q c tl sl d l (Some f)) = f)
  /\ (log_freq self = 0 ->
      forall b dl w,
        is_ok (fst (forward env self epoch (b :: dl) train w)) = false
        /\ (no_fault env -> has_optimizer self w ->
            fst (forward env self epoch (b :: dl) train w) = Err ZeroDivisionError))
  /\ (log_freq self <> 0 ->
      forall dl w, no_fault env -> has_optimizer self w ->
        fst (forward env self epoch dl train w) = Ok tt)
  /\ (forall dl w,
        forward env (with_log_freq (- log_freq self) self) epoch dl train w
        = forward env self epoch dl train w).
Proof.
  split; [reflexivity|]. split; [|split].
  - intros H0 b dl w. pose proof (forward_never_returns env self epoch b dl train H0 w) as Hn.
    split; [exact Hn|]. intros Hnf Ho.
    pose proof (forward_hoare env self epoch (b :: dl) train Hnf w Ho) as Hh.
    destruct (forward env self epoch (b :: dl) train w) as [[[]|e] w'];
      [discriminate Hn|]. simpl. now destruct Hh as [-> _].
  - intros Hne dl w Hnf Ho.
    pose proof (forward_hoare env self epoch dl train Hnf w Ho) as Hh.
    destruct (forward env self epoch dl train w) as [[[]|e] w']; [reflexivity|].
    destruct Hh as [_ H0]. contradiction.
  - intros dl w. apply forward_opp.
Qed.

Lemma Example_no_fault : no_fault Example.env0.
Proof. intros k. reflexivity. Qed.

Lemma Example_has_optimizer f :
  has_optimizer (Example.trainer_with f) Example.world0.
Proof. do 2 eexists. split; [vm_compute; reflexivity | reflexivity]. Qed.

Lemma log_freq_unchecked_witness :
  log_freq (Example.trainer_with (Some 0)) = 0
  /\ fst (forward Example.env0 (Example.trainer_with (Some 0)) 0
                  (Example.batch1 :: [Example.batch2]) true Example.world0)
     = Err ZeroDivisionError
  /\ log_freq (Example.trainer_with (Some (-3))) <> 0
  /\ fst (forward Example.env0 (Example.trainer_with (Some (-3))) 0
                  [Example.batch1; Example.batch2] true Example.world0)
     = Ok tt.
Proof.
  assert (Hne : log_freq (Example.trainer_with (Some (-3))) <> 0) by (simpl; lia).
  split; [reflexivity | split; [|split; [exact Hne|]]].
  - exact (proj2 (proj1 (proj2 (log_freq_unchecked Example.env0
             (Example.trainer_with (Some 0)) 0 true)) eq_refl
             Example.batch1 [Example.batch2] Example.world0)
           Example_no_fault (Example_has_optimizer (Some 0))).
  - exact (proj1 (proj2 (proj2 (log_freq_unchecked Example.env0
             (Example.trainer_with (Some (-3))) 0 true))) Hne
             [Example.batch1; Example.batch2] Example.world0
             Example_no_fault (Example_has_optimizer (Some (-3)))).
Defined.

(** C4, as stated, fails: a trainer is built with [log_freq = 0] and with a
    negative [log_freq]; nothing is rejected.  The first then fails in the
    batch loop, after the first batch's calls; the second runs the epoch. *)
Lemma log_freq_zero_accepted :
  (0 <= 0 /\
   Trainer_call Example.cls0
     [("model", VRef 1%nat); ("scheduler", VRef 3%nat); ("q_scheduler", VRef 4%nat);
      ("criterion", VRef 2%nat); ("train_loader", VLoader (train_set Example.env0));
      ("test_loader", VLoader (test_set Example.env0)); ("log_freq", VInt 0)]
   = Ok (Example.trainer_with (Some 0)))
  /\ log_freq (Example.trainer_with (Some 0)) = 0
  /\ fst (train Example.env0 (Example.trainer_with (Some 0)) 0 Example.world0)
     = Err ZeroDivisionError
  /\ w_trace (snd (train Example.env0 (Example.trainer_with (Some 0)) 0 Example.world0))
     = begin_calls Example.trainer0 true ++ batch_calls Example.trainer0 true 0
  /\ log_freq (Example.trainer_with (Some (-3))) = -3
  /\ fst (train Example.env0 (Example.trainer_with (Some (-3))) 0 Example.world0) = Ok tt.
Proof.
  split; [split; [lia | vm_compute; reflexivity]|].
  repeat split; vm_compute; reflexivity.
Qed.

(** ** The driver *)

Lemma never_returns_err {A B} (c : M A) (k : A -> M B) w :
  never_returns c ->
  exists e, c w = (Err e, snd (c w)) /\ bind c k w = (Err e, snd (c w)).
Proof.
  intros Hc. unfold bind. specialize (Hc w).
  destruct (c w) as [[a|e] w1]; [discriminate Hc|].
  exists e. split; reflexivity.
Qed.

Lemma never_returns_lift_err {A} e : never_returns (@lift A (Err e)).
Proof. intros w. reflexivity. Qed.

Lemma Trainer_call_wandb_logger cls m s q c tl sl d f v :
  Trainer_call cls
    [("model", VRef m); ("scheduler", VRef s); ("q_scheduler", VRef q);
     ("criterion", VRef c); ("train_loader", VLoader tl); ("test_loader", VLoader sl);
     ("device", VStr d); ("log_freq", VInt f); ("wandb_logger", v)]
  = Err (unexpected_keyword "wandb_logger").
Proof. reflexivity. Qed.

Lemma main_setup_never_returns env cls args :
  never_returns (main_setup env cls args).
Proof.
  unfold main_setup.
  repeat first
    [ rewrite Trainer_call_wandb_logger; apply never_returns_lift_err
    | apply never_returns_bind_r; intros ? ].
Qed.

Lemma main_setup_emits env cls args :
  emits (main_setup env cls args) (setup_calls env args).
Proof.
  unfold main_setup, setup_calls, Model_alloc, object_alloc,
    Scheduler_alloc, Q_Scheduler_alloc.
  destruct (bool_decide (is_Some (arg_wandb_project args))); simpl.
  all: eapply emits_eq;
    [ repeat first
        [ apply emits_modify; reflexivity
        | emits_step
        | match goal with
          | |- emits (fun w => (Ok _, _)) _ =>
              intros w; simpl; split; [exists 0%nat|]; simpl; now rewrite app_nil_r
          end ]
    | reflexivity ].
Qed.

Lemma main_setup_hoare env cls args :
  no_fault env ->
  hoare (fun _ => True) (main_setup env cls args)
        (fun e => e = unexpected_keyword "wandb_logger").
Proof.
  intros Hnf. unfold main_setup, print, when.
  repeat first
    [ rewrite Trainer_call_wandb_logger; intros w _; reflexivity
    | apply hoare_ret
    | apply hoare_modify; trivial
    | apply hoare_call; [exact Hnf | intros w _; eexists; split; [reflexivity | exact I]]
    | apply hoare_bind; [| intros ?]
    | match goal with
      | |- hoare _ (if ?b then _ else _) _ => destruct b
      end ].
  all: intros w _; exact I.
Qed.

Lemma Trainer_getattr_train_logger self :
  Trainer_getattr self "train_logger" = Err (AttributeError "train_logger").
Proof. reflexivity. Qed.

Lemma main_epoch_after_train env trainer save_path best epoch w w1 :
  train env trainer epoch (set_stdout (fun out => out ++ [OutText "Train Epoch"]) w)
  = (Ok tt, w1) ->
  main_epoch env trainer save_path best epoch w
  = (Err (AttributeError "train_logger"), w1).
Proof.
  intros H. unfold main_epoch.
  unfold bind at 1. unfold print at 1, modify at 1.
  rewrite (bind_ok _ _ _ _ _ H).
  unfold log_through. rewrite Trainer_getattr_train_logger. reflexivity.
Qed.

Lemma main_epoch_never_returns env trainer save_path best epoch :
  never_returns (main_epoch env trainer save_path best epoch).
Proof.
  unfold main_epoch.
  apply never_returns_bind_r; intros _.
  apply never_returns_bind_r; intros _.
  apply never_returns_bind_l.
  unfold log_through. rewrite Trainer_getattr_train_logger.
  apply never_returns_bind_l, never_returns_lift_err.
Qed.

(** C3.  Whatever the command line, [main] ends with an exception, having
    made only set-up calls: no call on the model, the schedulers or the
    loaders.  When the set-up itself does not fail, the exception is the
    [TypeError] of calling [Trainer] with the keyword [wandb_logger], which
    [__init__] does not have.  Behind it, the epoch loop reads
    [trainer.train_logger], which no trainer has (the log is
    [training_log]): given a trainer, the first turn of the loop raises
    [AttributeError] as soon as [train] has returned. *)
Theorem main_fails_before_training env cls args w :
  is_ok (fst (main env cls args w)) = false
  /\ (exists t, w_trace (snd (main env cls args w)) = w_trace w ++ t
                /\ count_calls is_trainer_call t = 0%nat)
  /\ (no_fault env ->
      fst (main env cls args w) = Err (unexpected_keyword "wandb_logger"))
  /\ existsb (String.eqb "wandb_logger") Trainer_params = false
  /\ (forall self,
        Trainer_getattr self "train_logger" = Err (AttributeError "train_logger")
        /\ Trainer_getattr self "training_log" = Ok (VRef (training_log self)))
  /\ (forall trainer save_path best epoch rest w0,
        is_ok (fst (main_epochs env trainer save_path best (epoch :: rest) w0)) = false
        /\ (forall w1,
              train env trainer epoch
                    (set_stdout (fun out => out ++ [OutText "Train Epoch"]) w0)
              = (Ok tt, w1) ->
              main_epochs env trainer save_path best (epoch :: rest) w0
              = (Err (AttributeError "train_logger"), w1))).
Proof.
  pose proof (main_setup_never_returns env cls args) as Hn.
  destruct (never_returns_err (main_setup env cls args)
              (fun trainer => main_with env trainer (save_path_of env args) args) w Hn)
    as (e & Hs & Hm).
  fold (main env cls args) in Hm.
  split; [rewrite Hm; reflexivity|].
  split; [|split; [|split; [reflexivity | split; [intros self; split; reflexivity|]]]].
  - destruct (main_setup_emits env cls args w) as [[k Hk] _].
    exists (firstn k (setup_calls env args)). rewrite Hm. split; [exact Hk|].
    apply count_calls_firstn_0. unfold setup_calls.
    destruct (bool_decide _); reflexivity.
  - intros Hnf. pose proof (main_setup_hoare env cls args Hnf w I) as Hh.
    rewrite Hm. rewrite Hs in Hh. simpl. now rewrite Hh.
  - intros trainer save_path best epoch rest w0. simpl main_epochs. split.
    + apply never_returns_bind_l, main_epoch_never_returns.
    + intros w1 H. apply bind_err. now apply main_epoch_after_train.
Qed.

Lemma main_fails_before_training_witness :
  no_fault Example.env0
  /\ fst (main Example.env0 Example.cls0 default_args Example.world0)
     = Err (unexpected_keyword "wandb_logger")
  /\ train Example.env0 Example.trainer0 0
           (set_stdout (fun out => out ++ [OutText "Train Epoch"]) Example.world0)
     = (Ok tt, set_stdout (fun out => OutText "Train Epoch" :: out) Example.world1)
  /\ main_epochs Example.env0 Example.trainer0 "results" 0%Q [0; 1] Example.world0
     = (Err (AttributeError "train_logger"),
        set_stdout (fun out => OutText "Train Epoch" :: out) Example.world1).
Proof.
  assert (Ht : train Example.env0 Example.trainer0 0
                 (set_stdout (fun out => out ++ [OutText "Train Epoch"]) Example.world0)
               = (Ok tt, set_stdout (fun out => OutText "Train Epoch" :: out)
                                    Example.world1))
    by (vm_compute; reflexivity).
  pose proof (main_fails_before_training Example.env0 Example.cls0 default_args
                Example.world0) as (_ & _ & Hk & _ & _ & He).
  split; [exact Example_no_fault|].
  split; [exact (Hk Example_no_fault)|].
  split; [exact Ht|].
  exact (proj2 (He Example.trainer0 "results" 0%Q 0 [1] Example.world0) _ Ht).
Defined.

(** ** The configuration file of a run *)

Lemma append_inj_l (s a b : string) : (s ++ a = s ++ b)%string -> a = b.
Proof.
  induction s as [|c s IH]; simpl; intros H; [exact H|].
  injection H as H. now apply IH.
Qed.

Lemma args_path_not_config sp :
  (sp ++ "/args.json")%string <> config_path sp.
Proof. unfold config_path. intros H. apply append_inj_l in H. discriminate H. Qed.

Lemma same_file_refl path w : same_file path w w.
Proof. reflexivity. Qed.

Lemma same_file_trans path w1 w2 w3 :
  same_file path w1 w2 -> same_file path w2 w3 -> same_file path w1 w3.
Proof. unfold same_file. intros H1 H2. now rewrite H2. Qed.

Lemma main_setup_same_file env cls args :
  keeps (same_file (config_path (save_path_of env args))) (main_setup env cls args).
Proof.
  pose proof (args_path_not_config (save_path_of env args)) as Hne.
  unfold main_setup, print, when.
  repeat first
    [ apply keeps_ret; apply same_file_refl
    | apply keeps_modify; intros w; unfold same_file; simpl;
      first [reflexivity | now apply lookup_insert_ne]
    | apply keeps_call;
      [ apply same_file_trans
      | intros w; reflexivity
      | intros w w' [= <-]; unfold same_file; simpl;
        first [reflexivity | now apply lookup_insert_ne] ]
    | apply keeps_bind; [apply same_file_trans | | intros ?]
    | match goal with
      | |- keeps _ (if ?b then _ else _) => destruct b
      end ].
  all: intros w; reflexivity.
Qed.

(** What [save_config] writes when it returns: one document with the two
    keys, in this order. *)
Lemma save_config_document env self save_dir w w' :
  save_config env self save_dir w = (Ok tt, w') ->
  w_files w' !! config_path save_dir
  = Some (FJson (JObj
      [("Common", Scheme_dict (scheme (get_scheduler (scheduler self) w)));
       ("Quantization",
        Q_Scheme_dict (q_scheme (get_q_scheduler (q_scheduler self) w)))])).
Proof.
  unfold save_config, bind, call, gets, print, modify.
  destruct (fault env _); [discriminate|]. simpl.
  intros [= <-]. simpl. apply lookup_insert_eq.
Qed.

(** C7, on the code.  [save_config] itself writes the document with the two
    keys, but the driver never gets to it: [main] ends with an exception
    before line 145, and the file [trainer_config.json] of the run is after
    [main] what it was before, for every command line. *)
Theorem main_never_saves_config env cls args w :
  is_ok (fst (main env cls args w)) = false
  /\ w_files (snd (main env cls args w)) !! config_path (save_path_of env args)
     = w_files w !! config_path (save_path_of env args)
  /\ (forall t, w_trace (snd (main env cls args w)) = w_trace w ++ t ->
        count_calls is_trainer_call t = 0%nat)
  /\ (forall self save_dir w0 w',
        save_config env self save_dir w0 = (Ok tt, w') ->
        exists common quantization,
          w_files w' !! config_path save_dir
          = Some (FJson (JObj [("Common", common); ("Quantization", quantization)]))).
Proof.
  pose proof (main_setup_never_returns env cls args) as Hn.
  destruct (never_returns_err (main_setup env cls args)
              (fun trainer => main_with env trainer (save_path_of env args) args) w Hn)
    as (e & Hs & Hm).
  fold (main env cls args) in Hm.
  split; [rewrite Hm; reflexivity|].
  split; [rewrite Hm; apply (main_setup_same_file env cls args w)|].
  split.
  - intros t Ht.
    destruct (main_setup_emits env cls args w) as [[k Hk] _].
    rewrite Hm in Ht. simpl in Ht. rewrite Hk in Ht.
    apply app_inv_head in Ht. subst t.
    apply count_calls_firstn_0. unfold setup_calls.
    destruct (bool_decide _); reflexivity.
  - intros self save_dir w0 w' H. do 2 eexists.
    apply (save_config_document env self save_dir w0 w' H).
Qed.

Lemma main_never_saves_config_witness :
  exists w',
    save_config Example.env0 Example.trainer0 "results" Example.world0 = (Ok tt, w')
    /\ exists common quantization,
         w_files w' !! config_path "results"
         = Some (FJson (JObj [("Common", common); ("Quantization", quantization)])).
Proof.
  let v := eval vm_compute in
        (snd (save_config Example.env0 Example.trainer0 "results" Example.world0))
  in pose (w' := v).
  assert (H : save_config Example.env0 Example.trainer0 "results" Example.world0
              = (Ok tt, w')) by (vm_compute; reflexivity).
  exists w'. split; [exact H|].
  exact (proj2 (proj2 (proj2 (main_never_saves_config Example.env0 Example.cls0
                                default_args Example.world0)))
               Example.trainer0 "results" Example.world0 w' H).
Defined.

(** The default command line: [main] raises the [TypeError] and there is no
    configuration file afterwards. *)
Lemma main_default_args_no_config :
  fst (script Example.env0 default_args empty_world)
  = Err (unexpected_keyword "wandb_logger")
  /\ w_files (snd (script Example.env0 default_args empty_world))
     !! config_path (save_path_of Example.env0 default_args) = None
  /\ w_files (snd (script Example.env0 default_args empty_world))
     !! (save_path_of Example.env0 default_args ++ "/args.json")%string
     = Some (FJson (Args_dict default_args)).
Proof. repeat split; vm_compute; reflexivity. Qed.

(** * Further properties of the code *)

(** ** get_optimizer *)



(** ** Trainer.register *)

(** X2.  [register] calls [model.register()], the model on the dummy input
    and [q_scheduler.register()], in this order and stopping at the first
    that raises; it prints its message exactly when all three returned, and
    prints nothing otherwise. *)
Theorem register_order env self dummy_input w :
  (exists k,
     w_trace (snd (register env self dummy_input w))
     = w_trace w ++ firstn (S k) (register_calls self))
  /\ (forall w', register env self dummy_input w = (Ok tt, w') ->
        w_trace w' = w_trace w ++ register_calls self
        /\ w_stdout w' = w_stdout w ++ [OutText "Q_Scheduler Register Done."])
  /\ (is_ok (fst (register env self dummy_input w)) = false ->
      w_stdout (snd (register env self dummy_input w)) = w_stdout w).
Proof.
  unfold register, register_calls, bind, call, print, modify, on_model,
    model_forward, on_q_scheduler.
  destruct (fault env (length (w_trace w))) as [e1|]; simpl.
  { split; [exists 0%nat; reflexivity|]. split; [discriminate | reflexivity]. }
  rewrite length_app. simpl.
  destruct (fault env (length (w_trace w) + 1)) as [e2|]; simpl.
  { split; [exists 1%nat; simpl; now rewrite <- app_assoc|].
    split; [discriminate | reflexivity]. }
  rewrite !length_app. simpl.
  destruct (fault env (length (w_trace w) + 1 + 1)) as [e3|]; simpl.
  { split; [exists 2%nat; simpl; now rewrite <- !app_assoc|].
    split; [discriminate | reflexivity]. }
  destruct (Q_Scheduler_register _) as [q'|e4]; simpl.
  - split; [exists 2%nat; simpl; now rewrite <- !app_assoc|].
    split; [|discriminate].
    intros w' [= <-]. simpl. split; [now rewrite <- !app_assoc | reflexivity].
  - split; [exists 2%nat; simpl; now rewrite <- !app_assoc|].
    split; [discriminate | reflexivity].
Qed.

Lemma register_order_witness :
  exists w',
    register Example.env0 Example.trainer0 [128; 3; 32; 32] Example.world0 = (Ok tt, w')
    /\ w_trace w' = w_trace Example.world0 ++ register_calls Example.trainer0
    /\ w_stdout w' = w_stdout Example.world0 ++ [OutText "Q_Scheduler Register Done."].
Proof.
  let v := eval vm_compute in
        (snd (register Example.env0 Example.trainer0 [128; 3; 32; 32] Example.world0))
  in pose (w' := v).
  assert (H : register Example.env0 Example.trainer0 [128; 3; 32; 32] Example.world0
              = (Ok tt, w')) by (vm_compute; reflexivity).
  exists w'. split; [exact H|].
  exact (proj1 (proj2 (register_order Example.env0 Example.trainer0 [128; 3; 32; 32]
                         Example.world0)) w' H).
Defined.

(** ** save_config and load_config *)



(** X4.  [load_config] fails in two ways, and says which: a path with no
    file raises [FileNotFoundError], a file that is not a JSON document
    raises [JSONDecodeError]; in neither case is the success message
    printed. *)
Theorem load_config_errors env self path w :
  fault env (length (w_trace w)) = None ->
  (w_files w !! path = None ->
   fst (load_config env self path w) = Err (FileNotFoundError path))
  /\ (forall text, w_files w !! path = Some (FRaw text) ->
        fst (load_config env self path w) = Err JSONDecodeError)
  /\ (is_ok (fst (load_config env self path w)) = false ->
      w_stdout (snd (load_config env self path w)) = w_stdout w).
Proof.
  intros Hf. unfold load_config, bind, call, gets, print, modify, raise.
  rewrite Hf. simpl.
  destruct (w_files w !! path) as [[doc|txt]|] eqn:E; simpl; rewrite ?E; simpl;
    repeat split; try reflexivity; try discriminate.
Qed.

Lemma load_config_errors_witness :
  fault Example.env0 (length (w_trace Example.world0)) = None
  /\ w_files Example.world0 !! "missing.json" = None
  /\ fst (load_config Example.env0 Example.trainer0 "missing.json" Example.world0)
     = Err (FileNotFoundError "missing.json").
Proof.
  assert (H : w_files Example.world0 !! "missing.json" = None)
    by (vm_compute; reflexivity).
  split; [reflexivity | split; [exact H|]].
  exact (proj1 (load_config_errors Example.env0 Example.trainer0 "missing.json"
                  Example.world0 eq_refl) H).
Defined.

(** X5.  Round trip: when the file system does not fail, [save_config]
    returns, and [load_config] on the path it wrote returns too and leaves
    the file as written. *)
Theorem save_then_load_config env self save_dir w :
  no_fault env ->
  exists w1 w2,
    save_config env self save_dir w = (Ok tt, w1)
    /\ load_config env self (config_path save_dir) w1 = (Ok tt, w2)
    /\ w_files w2 !! config_path save_dir = Some (FJson (config_document self w))
    /\ w_files w2 = w_files w1.
Proof.
  intros Hnf.
  unfold save_config, load_config, config_path, config_document,
    bind, call, gets, print, modify.
  rewrite Hnf. simpl. do 2 eexists. split; [reflexivity|].
  rewrite Hnf. simpl. rewrite lookup_insert_eq. simpl. rewrite lookup_insert_eq.
  split; [reflexivity|]. simpl. split; [apply lookup_insert_eq | reflexivity].
Qed.

Lemma save_then_load_config_witness :
  exists w1 w2,
    save_config Example.env0 Example.trainer0 "results" Example.world0 = (Ok tt, w1)
    /\ load_config Example.env0 Example.trainer0 (config_path "results") w1 = (Ok tt, w2)
    /\ w_files w2 !! config_path "results"
       = Some (FJson (config_document Example.trainer0 Example.world0))
    /\ w_files w2 = w_files w1.
Proof.
  exact (save_then_load_config Example.env0 Example.trainer0 "results" Example.world0
           Example_no_fault).
Defined.

(** ** Edge cases of a pass *)

(** X6.  An empty loader.  When no collaborator fails, a pass over no
    batches returns, whatever [log_freq] is (the [batch % log_freq] test is
    never reached): a training pass still resets the sensitivities and makes
    the two epoch-end calls, an evaluation pass only switches the model to
    evaluation mode; both print the epoch line and nothing else. *)
Theorem forward_empty_loader env self epoch train w :
  no_fault env ->
  exists w',
    forward env self epoch [] train w = (Ok tt, w')
    /\ w_trace w' = w_trace w ++ begin_calls self train ++ end_calls self train
    /\ w_stdout w'
       = w_stdout w ++ [OutEpoch epoch (lr (get_scheduler (scheduler self) w'))].
Proof.
  intros Hnf.
  unfold forward, forward_begin, forward_end, forward_loop, begin_calls, end_calls,
    when, bind, call, print, modify, gets, on_log, time_time, ret,
    on_model, on_scheduler, on_q_scheduler.
  destruct train; repeat (rewrite Hnf; simpl); eexists;
    (split; [reflexivity|]); simpl;
    (split; [now rewrite <- ?app_assoc | reflexivity]).
Qed.

Lemma forward_empty_loader_witness :
  exists w',
    forward Example.env0 (Example.trainer_with (Some 0)) 0 [] true Example.world0
    = (Ok tt, w')
    /\ w_trace w'
       = w_trace Example.world0
         ++ begin_calls (Example.trainer_with (Some 0)) true
         ++ end_calls (Example.trainer_with (Some 0)) true
    /\ w_stdout w'
       = w_stdout Example.world0
         ++ [OutEpoch 0 (lr (get_scheduler
                               (scheduler (Example.trainer_with (Some 0))) w'))].
Proof.
  exact (forward_empty_loader Example.env0 (Example.trainer_with (Some 0)) 0 true
           Example.world0 Example_no_fault).
Defined.






(** ** What a pass prints *)

Section Yields.
Context {X : Type} (obs : World -> list X).

Lemma yields_eq {A} (c : M A) t t' : yields obs c t' -> t' = t -> yields obs c t.
Proof. now intros H <-. Qed.

Lemma yields_silent {A} (c : M A) :
  (forall w, obs (snd (c w)) = obs w) -> yields obs c [].
Proof.
  intros H w. rewrite H. split; [exists 0%nat|]; simpl; now rewrite app_nil_r.
Qed.

Lemma yields_stop {A} (c : M A) t :
  never_returns c -> (forall w, obs (snd (c w)) = obs w) -> yields obs c t.
Proof.
  intros Hn H w. rewrite H, Hn.
  split; [exists 0%nat; simpl; now rewrite app_nil_r | discriminate].
Qed.

Lemma yields_bind {A B} (c : M A) (k : A -> M B) t1 t2 :
  yields obs c t1 -> (forall a, yields obs (k a) t2) ->
  yields obs (bind c k) (t1 ++ t2).
Proof.
  intros Hc Hk w. unfold bind.
  destruct (Hc w) as [[n Hn] Hok].
  destruct (c w) as [[a|e] w1]; simpl in *.
  - specialize (Hok eq_refl).
    destruct (Hk a w1) as [[m Hm] Hok2].
    split.
    + exists (length t1 + m)%nat.
      rewrite Hm, Hok, firstn_app_2, app_assoc. reflexivity.
    + intros H. rewrite (Hok2 H), Hok, app_assoc. reflexivity.
  - split; [|discriminate].
    exists (Nat.min n (length t1)).
    rewrite Hn. f_equal.
    rewrite firstn_app.
    replace (Nat.min n (length t1) - length t1)%nat with 0%nat by lia.
    simpl. rewrite app_nil_r.
    destruct (Nat.le_ge_cases n (length t1)).
    + now rewrite Nat.min_l.
    + rewrite Nat.min_r by assumption.
      now rewrite !firstn_all2 by lia.
Qed.

Lemma yields_bind_nil {A B} (c : M A) (k : A -> M B) :
  yields obs c [] -> (forall a, yields obs (k a) []) -> yields obs (bind c k) [].
Proof. intros Hc Hk. now apply (yields_bind c k [] []). Qed.

Lemma yields_when_nil (b : bool) c : yields obs c [] -> yields obs (when b c) [].
Proof.
  destruct b; [trivial | intros _; apply yields_silent; intros w; reflexivity].
Qed.

Lemma yields_call env c eff :
  (forall w, obs (set_trace (fun t => t ++ [c]) w) = obs w) ->
  (forall w w', eff w = Ok w' -> obs w' = obs w) ->
  yields obs (call env c eff) [].
Proof.
  intros Ht He. apply yields_silent. intros w. unfold call.
  destruct (fault env _); [apply Ht|].
  destruct (eff _) as [w2|e] eqn:E; simpl; [|apply Ht].
  now rewrite (He _ _ E).
Qed.

End Yields.

Lemma printed_on_scheduler s f w w' :
  on_scheduler s f w = Ok w' -> printed w' = printed w.
Proof.
  unfold on_scheduler. destruct (f _); [intros [= <-]; reflexivity | discriminate].
Qed.

Lemma printed_on_q_scheduler q f w w' :
  on_q_scheduler q f w = Ok w' -> printed w' = printed w.
Proof.
  unfold on_q_scheduler. destruct (f _); [intros [= <-]; reflexivity | discriminate].
Qed.

Lemma yields_printed_call env c eff :
  (forall w w', eff w = Ok w' -> printed w' = printed w) ->
  yields printed (call env c eff) [].
Proof. intros H. apply yields_call; [reflexivity | exact H]. Qed.

Lemma yields_print o : yields printed (print o) [out_kind o].
Proof.
  intros w. unfold print, modify, printed. simpl. rewrite map_app. simpl.
  split; [exists 1%nat|]; reflexivity.
Qed.

Ltac silent_step :=
  first
    [ apply yields_printed_call;
      first [ intros ? ? [= <-]; reflexivity
            | apply printed_on_scheduler
            | apply printed_on_q_scheduler ]
    | apply yields_silent; intros ?; reflexivity ].

(** The end of the loop body: the record is printed when it is due. *)
Lemma yields_log_if_due self batch (ts : Q) :
  yields printed
    (let* due := py_mod_is_zero (Z.of_nat batch) (log_freq self) in
     when due (TrainingLog_log (training_log self) (BatchNo (Z.of_nat batch)));;
     ret ts)
    (map (fun i => KLog (BatchNo i)) (due_batches (log_freq self) batch 1)).
Proof.
  unfold py_mod_is_zero, due_batches. simpl.
  destruct (log_freq self =? 0).
  - apply yields_stop.
    + apply never_returns_bind_l, never_returns_raise.
    + intros w. reflexivity.
  - destruct (Z.of_nat batch mod log_freq self =? 0); simpl.
    + intros w. unfold bind, ret, when, TrainingLog_log, gets, print, modify, printed.
      simpl. rewrite map_app. simpl. split; [exists 1%nat|]; reflexivity.
    + apply yields_silent. intros w. reflexivity.
Qed.

Lemma forward_batch_prints env self train batch b ts :
  yields printed (forward_batch env self train batch b ts)
         (map (fun i => KLog (BatchNo i)) (due_batches (log_freq self) batch 1)).
Proof.
  unfold forward_batch, on_log.
  eapply yields_eq.
  - repeat first
      [ apply yields_log_if_due
      | apply yields_when_nil
      | apply yields_bind; [| intros ?]
      | apply yields_bind_nil; [| intros ?]
      | silent_step ].
  - reflexivity.
Qed.

Lemma due_batches_cons f batch n :
  due_batches f batch (S n) = due_batches f batch 1 ++ due_batches f (S batch) n.
Proof.
  unfold due_batches. cbn [seq map]. simpl.
  destruct (Z.of_nat batch mod f =? 0); reflexivity.
Qed.

Lemma forward_loop_prints env self train dl : forall batch ts,
  yields printed (forward_loop env self train dl batch ts)
         (map (fun i => KLog (BatchNo i))
              (due_batches (log_freq self) batch (length dl))).
Proof.
  induction dl as [|b rest IH]; intros batch ts.
  - apply yields_silent. intros w. reflexivity.
  - cbn [forward_loop length]. rewrite due_batches_cons, map_app.
    eapply yields_eq.
    + apply yields_bind; [silent_step | intros _].
      apply yields_bind; [apply forward_batch_prints | intros ts'].
      apply IH.
    + reflexivity.
Qed.

Lemma forward_prints env self epoch dl train :
  yields printed (forward env self epoch dl train)
         (pass_lines (log_freq self) epoch (length dl)).
Proof.
  unfold forward, forward_begin, forward_end, on_log, pass_lines.
  eapply yields_eq.
  - apply yields_bind; [|intros _].
    { apply yields_bind_nil; [|intros _; silent_step].
      destruct train;
        [apply yields_bind_nil; [silent_step | intros _; silent_step] | silent_step]. }
    apply yields_bind; [silent_step | intros ts].
    apply yields_bind; [apply forward_loop_prints | intros _].
    apply yields_bind; [|intros _].
    { apply yields_when_nil.
      apply yields_bind_nil; [silent_step | intros _; silent_step]. }
    apply (yields_bind _ _ _ [] [KEpoch epoch]);
      [apply yields_silent; intros ?; reflexivity | intros r].
    exact (yields_print (OutEpoch epoch r)).
  - reflexivity.
Qed.

Lemma due_batches_In f start n i :
  In i (due_batches f start n)
  <-> (Z.of_nat start <= i < Z.of_nat (start + n) /\ i mod f = 0).
Proof.
  unfold due_batches. rewrite List.filter_In, List.in_map_iff, Z.eqb_eq.
  split.
  - intros [(j & <- & Hj) Hm]. apply List.in_seq in Hj. split; [lia | exact Hm].
  - intros [Hr Hm]. split; [|exact Hm].
    exists (Z.to_nat i). split; [lia|]. apply List.in_seq. lia.
Qed.

(** X8.  The progress records.  A completed pass over [n] batches prints one
    record for each batch number [i < n] with [i % log_freq == 0], in
    increasing order, and then the epoch line; nothing else.  A pass that
    raises has printed an initial part of these lines.  With a non-empty
    loader the first record is always that of batch 0. *)
Theorem log_records_when_due env self epoch dl train w :
  (exists k,
     printed (snd (forward env self epoch dl train w))
     = printed w ++ firstn k (pass_lines (log_freq self) epoch (length dl)))
  /\ (is_ok (fst (forward env self epoch dl train w)) = true ->
      printed (snd (forward env self epoch dl train w))
      = printed w
        ++ map (fun i => KLog (BatchNo i)) (due_batches (log_freq self) 0 (length dl))
        ++ [KEpoch epoch])
  /\ (forall i, In i (due_batches (log_freq self) 0 (length dl))
                <-> (0 <= i < Z.of_nat (length dl) /\ i mod log_freq self = 0))
  /\ (forall n, hd_error (due_batches (log_freq self) 0 (S n)) = Some 0).
Proof.
  destruct (forward_prints env self epoch dl train w) as [Hk Hok].
  split; [exact Hk|]. split; [exact Hok|]. split.
  - intros i. rewrite due_batches_In. simpl. reflexivity.
  - intros n. unfold due_batches. cbn [seq map]. simpl. reflexivity.
Qed.

Lemma log_records_when_due_witness :
  is_ok (fst (forward Example.env0 Example.trainer0 0 [Example.batch1; Example.batch2]
                      true Example.world0)) = true
  /\ printed (snd (forward Example.env0 Example.trainer0 0
                           [Example.batch1; Example.batch2] true Example.world0))
     = printed Example.world0 ++ [KLog (BatchNo 0); KEpoch 0].
Proof.
  assert (H : is_ok (fst (forward Example.env0 Example.trainer0 0
                            [Example.batch1; Example.batch2] true Example.world0)) = true)
    by (vm_compute; reflexivity).
  split; [exact H|].
  exact (proj1 (proj2 (log_records_when_due Example.env0 Example.trainer0 0
                         [Example.batch1; Example.batch2] true Example.world0)) H).
Defined.

(** X9.  The epoch line.  The last line of a completed pass is
    [Epoch: e, lr: r] with [e] the epoch number the caller passed and [r]
    the learning rate the trainer's scheduler holds when the pass ends (in a
    training pass: after [update_epoch()] and [q_scheduler.step()]). *)
Theorem epoch_line_last env self epoch dl train w w' :
  forward env self epoch dl train w = (Ok tt, w') ->
  exists out,
    w_stdout w' = out ++ [OutEpoch epoch (lr (get_scheduler (scheduler self) w'))].
Proof.
  unfold forward. intros H.
  apply bind_inv_ok in H as (a1 & w1 & _ & H).
  apply bind_inv_ok in H as (ts & w2 & _ & H).
  apply bind_inv_ok in H as (a3 & w3 & _ & H).
  unfold forward_end in H.
  apply bind_inv_ok in H as (a4 & w4 & _ & H).
  unfold bind, gets, print, modify in H. injection H as <-.
  exists (w_stdout w4). reflexivity.
Qed.

Lemma epoch_line_last_witness :
  exists out,
    w_stdout Example.world1
    = out ++ [OutEpoch 0 (lr (get_scheduler (scheduler Example.trainer0)
                                            Example.world1))].
Proof.
  exact (epoch_line_last Example.env0 Example.trainer0 0
           (train_loader Example.trainer0) true Example.world0 Example.world1
           Example_train).
Defined.

(** ** The mode of the model *)












(** ** Calling Trainer by keyword *)





(** ** What main does before it fails *)

Lemma main_setup_no_fault env cls args w :
  no_fault env ->
  w_files (snd (main_setup env cls args w))
  !! (save_path_of env args ++ "/args.json")%string
  = Some (FJson (Args_dict args))
  /\ w_trace (snd (main_setup env cls args w)) = w_trace w ++ setup_calls env args.
Proof.
  intros Hnf.
  unfold main_setup, setup_calls, when, bind, call, print, modify, no_effect, lift,
    Model_alloc, object_alloc, Scheduler_alloc, Q_Scheduler_alloc, ret.
  destruct (bool_decide (is_Some (arg_wandb_project args)));
    repeat (rewrite Hnf; simpl);
    (split; [apply lookup_insert_eq | now rewrite <- !app_assoc]).
Qed.

(** X12.  What a run leaves behind.  When the set-up calls do not fail,
    [main] has, by the time it raises, written the command line to
    [args.json] under the run's directory and made every set-up call, up to
    and including the construction of the schedulers; [wandb.init] and
    [WandbLogger()] are among them exactly when [--wandb_project] was
    given. *)
Theorem main_writes_args env cls args w :
  no_fault env ->
  w_files (snd (main env cls args w))
  !! (save_path_of env args ++ "/args.json")%string
  = Some (FJson (Args_dict args))
  /\ w_trace (snd (main env cls args w)) = w_trace w ++ setup_calls env args
  /\ count_calls (fun c => match c with
                           | CSetup "wandb.init" | CSetup "WandbLogger" => true
                           | _ => false
                           end) (setup_calls env args)
     = (if bool_decide (is_Some (arg_wandb_project args)) then 2 else 0)%nat.
Proof.
  intros Hnf.
  pose proof (main_setup_never_returns env cls args) as Hn.
  destruct (never_returns_err (main_setup env cls args)
              (fun trainer => main_with env trainer (save_path_of env args) args) w Hn)
    as (e & _ & Hm).
  fold (main env cls args) in Hm. rewrite Hm. simpl.
  destruct (main_setup_no_fault env cls args w Hnf) as [Hfile Htrace].
  split; [exact Hfile | split; [exact Htrace|]].
  unfold setup_calls. destruct (bool_decide _); reflexivity.
Qed.

Lemma main_writes_args_witness :
  w_files (snd (main Example.env0 Example.cls0 default_args Example.world0))
  !! (save_path_of Example.env0 default_args ++ "/args.json")%string
  = Some (FJson (Args_dict default_args)).
Proof.
  exact (proj1 (main_writes_args Example.env0 Example.cls0 default_args
                  Example.world0 Example_no_fault)).
Defined.
